(** * Territory dashboard: classifier, proximity filter, aggregator, query filter

    A shallow embedding of the data-processing functions of [app.py]
    ([assign_flags], [haversine], [find_available_cities],
    [summarize_by_rep], [filter_data]) and the properties the written
    specification states about them.

    Conventions of the embedding.
    - A pandas data frame is the list of its rows, in index order.
    - A cell that pandas reports as missing (NaN, NaT, None) is [None].
    - Python floats are modelled by the real numbers together with NaN:
      a float is an [option R], NaN being [None]; every arithmetic
      operation propagates NaN and every comparison with NaN is false.
      Rounding is not modelled.
    - Timestamps are integers counting nanoseconds. *)

From Stdlib Require Import Reals Lra Lia ZArith List String Ascii Bool.
From Stdlib Require Import Sorted Permutation.
From Stdlib Require OrderedTypeEx.
Import ListNotations.

Local Open Scope string_scope.
Local Open Scope list_scope.

(** ** Data model *)

(** One row of the territory sheet.  [Flag] is the column written by
    [assign_flags]; it is [None] on a freshly loaded frame. *)
Record row : Type := mkRow {
  City : option string;
  State : option string;
  Latitude : option R;
  Longitude : option R;
  Population : option Z;
  Rep_Assigned : option string;
  Date_Assigned_to_Rep : option Z;
  Sale_Entry_Date : option Z;
  Deals : option Z;
  Flag : option string
}.

Definition DataFrame : Type := list row.

(** [pd.notna] on a cell. *)
Definition notna {A : Type} (c : option A) : bool :=
  match c with Some _ => true | None => false end.

Definition isna {A : Type} (c : option A) : bool := negb (notna c).

(** ** Classifier: [assign_flags] *)

Definition ns_per_day : Z := 86400000000000.

(** [(today - assigned_date).days]: the day field of a time delta is the
    floor of the difference divided by one day. *)
Definition timedelta_days (today assigned_date : Z) : Z :=
  ((today - assigned_date) / ns_per_day)%Z.

(** [deals == 0]; a missing cell compares unequal to everything. *)
Definition deals_eq_0 (deals : option Z) : bool :=
  match deals with Some n => (n =? 0)%Z | None => false end.

(** Body of the loop of [assign_flags]: the flag appended for one row.
    A frame without a [Deals] column is represented with [Deals = Some 0]
    in every row, which is what [row.get("Deals", 0)] yields there. *)
Definition row_flag (today : Z) (r : row) : string :=
  let assigned_date := Date_Assigned_to_Rep r in
  let deal_date := Sale_Entry_Date r in
  let deals := Deals r in
  let rep_assigned := Rep_Assigned r in
  match assigned_date with
  | Some d =>
      let days_since_assigned := timedelta_days today d in
      if (days_since_assigned <=? 210)%Z then "Blue"
      else if ((210 <? days_since_assigned) && (days_since_assigned <=? 270))%Z then "Orange"
      else if ((270 <? days_since_assigned)%Z && deals_eq_0 deals) then "Red"
      else "Black"
  | None =>
      if notna rep_assigned then "Black" else "Purple"
  end.

Definition set_Flag (r : row) (f : string) : row :=
  mkRow (City r) (State r) (Latitude r) (Longitude r) (Population r)
        (Rep_Assigned r) (Date_Assigned_to_Rep r) (Sale_Entry_Date r)
        (Deals r) (Some f).

(** [data["Flag"] = flags]: the column is written row by row, replacing
    a [Flag] column that is already there. *)
Fixpoint assign_column_Flag (data : DataFrame) (flags : list string) : DataFrame :=
  match data, flags with
  | r :: data', f :: flags' => set_Flag r f :: assign_column_Flag data' flags'
  | _, _ => []
  end.

(** [assign_flags], with the value read from [datetime.today()] as the
    argument [today]. *)
Definition assign_flags (today : Z) (data : DataFrame) : DataFrame :=
  let flags := fold_left (fun flags r => flags ++ [row_flag today r]) data [] in
  assign_column_Flag data flags.

(** ** Distance: [haversine] *)

Local Open Scope R_scope.

(** [math.radians]. *)
Definition radians (x : R) : R := x * PI / 180.

(** [math.atan2 y x] on real arguments. *)
Definition atan2 (y x : R) : R :=
  if Rlt_dec 0 x then atan (y / x)
  else if Rlt_dec x 0 then
    (if Rle_dec 0 y then atan (y / x) + PI else atan (y / x) - PI)
  else if Rlt_dec 0 y then PI / 2
  else if Rlt_dec y 0 then - (PI / 2)
  else 0.

(** The arithmetic of [haversine] on numbers that are not NaN. *)
Definition haversine_R (lat1 lon1 lat2 lon2 : R) : R :=
  let R := 39588 / 10 in
  let dlat := radians (lat2 - lat1) in
  let dlon := radians (lat2 - lon1) in
  let a := sin (dlat / 2) ^ 2
           + cos (radians lat1) * cos (radians lat2) * sin (dlon / 2) ^ 2 in
  let c := 2 * atan2 (sqrt a) (sqrt (1 - a)) in
  R * c.

(** Float operations: NaN in, NaN out. *)
Definition float : Type := option R.

Definition f1 (op : R -> R) (x : float) : float :=
  match x with Some u => Some (op u) | None => None end.

Definition f2 (op : R -> R -> R) (x y : float) : float :=
  match x, y with Some u, Some v => Some (op u v) | _, _ => None end.

(** [haversine] as the source writes it, on floats.  The parameter
    [lon2] is not read by the body. *)
Definition haversine (lat1 lon1 lat2 lon2 : float) : float :=
  let R := Some (39588 / 10) in
  let dlat := f1 radians (f2 Rminus lat2 lat1) in
  let dlon := f1 radians (f2 Rminus lat2 lon1) in
  let a := f2 Rplus
             (f1 (fun s => s ^ 2) (f1 sin (f2 Rdiv dlat (Some 2))))
             (f2 Rmult
                (f2 Rmult (f1 cos (f1 radians lat1)) (f1 cos (f1 radians lat2)))
                (f1 (fun s => s ^ 2) (f1 sin (f2 Rdiv dlon (Some 2))))) in
  let c := f2 Rmult (Some 2) (f2 atan2 (f1 sqrt a) (f1 sqrt (f2 Rminus (Some 1) a))) in
  f2 Rmult R c.

(** The formula the specification asks for: the longitude difference is
    [lon2 - lon1]. *)
Definition haversine_standard (lat1 lon1 lat2 lon2 : R) : R :=
  let R := 39588 / 10 in
  let dlat := radians (lat2 - lat1) in
  let dlon := radians (lon2 - lon1) in
  let a := sin (dlat / 2) ^ 2
           + cos (radians lat1) * cos (radians lat2) * sin (dlon / 2) ^ 2 in
  R * (2 * atan2 (sqrt a) (sqrt (1 - a))).

(** [x <= y] on floats: false as soon as one side is NaN. *)
Definition float_le (x : float) (y : R) : bool :=
  match x with
  | Some u => if Rle_dec u y then true else false
  | None => false
  end.

(** ** Frames: boolean masks *)

(** [data[mask]]. *)
Fixpoint boolean_index (data : DataFrame) (mask : list bool) : DataFrame :=
  match data, mask with
  | r :: data', b :: mask' =>
      if b then r :: boolean_index data' mask' else boolean_index data' mask'
  | _, _ => []
  end.

(** Element-wise [&] and [|] of two masks. *)
Fixpoint mask_and (m1 m2 : list bool) : list bool :=
  match m1, m2 with
  | b1 :: m1', b2 :: m2' => (b1 && b2)%bool :: mask_and m1' m2'
  | _, _ => []
  end.

Fixpoint mask_or (m1 m2 : list bool) : list bool :=
  match m1, m2 with
  | b1 :: m1', b2 :: m2' => (b1 || b2)%bool :: mask_or m1' m2'
  | _, _ => []
  end.

(** ** Proximity filter: [find_available_cities] *)

(** The inner loop: scan the assigned rows, stop at the first one whose
    distance is at most 7 miles.  The result is the final [too_close]. *)
Fixpoint scan_assigned (unassigned_row : row) (assigned : DataFrame) : bool :=
  match assigned with
  | [] => false
  | assigned_row :: rest =>
      let distance :=
        haversine (Latitude unassigned_row) (Longitude unassigned_row)
                  (Latitude assigned_row) (Longitude assigned_row) in
      if float_le distance 7 then true
      else scan_assigned unassigned_row rest
  end.

(** The outer loop, appending to [available_cities]. *)
Fixpoint scan_unassigned (unassigned assigned available_cities : DataFrame) : DataFrame :=
  match unassigned with
  | [] => available_cities
  | unassigned_row :: rest =>
      let too_close := scan_assigned unassigned_row assigned in
      if negb too_close
      then scan_unassigned rest assigned (available_cities ++ [unassigned_row])
      else scan_unassigned rest assigned available_cities
  end.

(** [data[data["Rep Assigned"].notna()]] and [data[data["Rep Assigned"].isna()]]. *)
Definition assigned_rows (data : DataFrame) : DataFrame :=
  boolean_index data (map (fun r => notna (Rep_Assigned r)) data).

Definition unassigned_rows (data : DataFrame) : DataFrame :=
  boolean_index data (map (fun r => isna (Rep_Assigned r)) data).

Definition find_available_cities (data : DataFrame) : DataFrame :=
  let assigned := assigned_rows data in
  let unassigned := unassigned_rows data in
  scan_unassigned unassigned assigned [].

Local Close Scope R_scope.

(** ** Aggregator: [summarize_by_rep] *)

(** Labels of a grouped count: (representative, flag). *)
Definition rep_flag_eq_dec (k1 k2 : string * string) : {k1 = k2} + {k1 <> k2}.
Proof. decide equality; apply string_dec. Defined.

Arguments rep_flag_eq_dec : simpl never.

(** Sorted index without duplicates, as [groupby] and [unstack] build it. *)
Fixpoint insert_sorted (x : string) (l : list string) : list string :=
  match l with
  | [] => [x]
  | y :: l' =>
      match String.compare x y with
      | Lt => x :: l
      | Eq => l
      | Gt => y :: insert_sorted x l'
      end
  end.

Definition sort_uniq (l : list string) : list string :=
  fold_right insert_sorted [] l.

(** The (representative, flag) label of every row that takes part in
    the count: [groupby] drops the rows whose key is missing and
    [value_counts] drops the missing values. *)
Definition rep_flag_labels (data : DataFrame) : list (string * string) :=
  flat_map (fun r =>
              match Rep_Assigned r, Flag r with
              | Some rep, Some f => [(rep, f)]
              | _, _ => []
              end) data.

(** [data.groupby('Rep Assigned')['Flag'].value_counts()]: one entry for
    every label that occurs, with its number of occurrences. *)
Definition groupby_value_counts (data : DataFrame) : list ((string * string) * nat) :=
  let labels := rep_flag_labels data in
  map (fun k => (k, count_occ rep_flag_eq_dec labels k))
      (nodup rep_flag_eq_dec labels).

Fixpoint lookup {K V : Type} (eq_dec : forall a b : K, {a = b} + {a <> b})
         (k : K) (l : list (K * V)) : option V :=
  match l with
  | [] => None
  | (k', v) :: l' => if eq_dec k k' then Some v else lookup eq_dec k l'
  end.

(** A table: rows labelled by representative, each a list of labelled
    cells in column order. *)
Definition table : Type := list (string * list (string * nat)).

(** [.unstack(fill_value=0)]. *)
Definition unstack (counts : list ((string * string) * nat)) (fill_value : nat) : table :=
  let index := sort_uniq (map (fun e => fst (fst e)) counts) in
  let columns := sort_uniq (map (fun e => snd (fst e)) counts) in
  map (fun rep =>
         (rep, map (fun c =>
                      (c, match lookup rep_flag_eq_dec (rep, c) counts with
                          | Some n => n
                          | None => fill_value
                          end)) columns)) index.

(** [.reindex(columns=..., fill_value=...)]. *)
Definition reindex_columns (columns : list string) (fill_value : nat) (t : table) : table :=
  map (fun r =>
         (fst r, map (fun c =>
                        (c, match lookup string_dec c (snd r) with
                            | Some n => n
                            | None => fill_value
                            end)) columns)) t.

(** [summary['Total'] = summary.sum(axis=1)]. *)
Definition add_Total (t : table) : table :=
  map (fun r => (fst r, snd r ++ [("Total", list_sum (map snd (snd r)))])) t.

Definition summarize_by_rep (data : DataFrame) : table :=
  let summary := unstack (groupby_value_counts data) 0 in
  let summary := reindex_columns ["Blue"; "Orange"; "Red"; "Black"] 0 summary in
  add_Total summary.

(** ** Query filter: [filter_data] *)

(** ASCII lower case, for [case=False]. *)
Definition lower_ascii (c : ascii) : ascii :=
  let n := nat_of_ascii c in
  if ((65 <=? n) && (n <=? 90))%nat then ascii_of_nat (n + 32) else c.

Fixpoint lower (s : string) : string :=
  match s with
  | EmptyString => EmptyString
  | String c s' => String (lower_ascii c) (lower s')
  end.

Fixpoint substringb (pat s : string) : bool :=
  (String.prefix pat s
   || match s with
      | EmptyString => false
      | String _ s' => substringb pat s'
      end)%bool.

(** Characters with a meaning of their own in a regular expression. *)
Definition regex_special (c : ascii) : bool :=
  existsb (Ascii.eqb c) (list_ascii_of_string ".^$*+?{}[]\|()").

Definition plain_pattern (pat : string) : bool :=
  forallb (fun c => negb (regex_special c)) (list_ascii_of_string pat).

(** Exceptions that end a call. *)
Inductive exception : Type :=
| re_error
| ValueError.

(** What a call comes to: the value it returns, the exception it
    raises, or nothing when its search text is one the embedding does
    not cover. *)
Inductive outcome (A : Type) : Type :=
| Returns (a : A)
| Raises (e : exception)
| Not_covered.

Arguments Returns {A} a.
Arguments Raises {A} e.
Arguments Not_covered {A}.

Definition outcome_bind {A B : Type} (x : outcome A) (k : A -> outcome B) : outcome B :=
  match x with
  | Returns a => k a
  | Raises e => Raises e
  | Not_covered => Not_covered
  end.

Definition outcome_map {A B : Type} (f : A -> B) (x : outcome A) : outcome B :=
  outcome_bind x (fun a => Returns (f a)).

(** Two kinds of text that [re.compile] refuses: a text that begins
    with a repetition sign (nothing to repeat), and a text that opens a
    group and holds no closing parenthesis, no backslash and no bracket
    (unterminated group). *)
Definition has_char (c : ascii) (pat : string) : bool :=
  existsb (Ascii.eqb c) (list_ascii_of_string pat).

Definition starts_with_repetition (pat : string) : bool :=
  match pat with
  | String c _ => has_char c "*+?"
  | EmptyString => false
  end.

Definition unterminated_group (pat : string) : bool :=
  (has_char "(" pat && negb (has_char ")" pat)
   && negb (has_char "\" pat) && negb (has_char "[" pat))%bool.

Definition does_not_compile (pat : string) : bool :=
  (starts_with_repetition pat || unterminated_group pat)%bool.

(** [col.str.contains(pat, case=False, na=False)].  pandas compiles
    [pat] as a regular expression before it reads any cell, and raises
    [re.error] when it does not compile.  The embedding covers the
    patterns without special characters, on ASCII text, where the
    search is a substring test up to case, and the patterns of
    [does_not_compile]; any other pattern is not covered. *)
Definition cell_contains (pat : string) (c : option string) : bool :=
  match c with
  | Some s => substringb (lower pat) (lower s)
  | None => false
  end.

Definition str_contains (col : list (option string)) (pat : string) : outcome (list bool) :=
  if plain_pattern pat then Returns (map (cell_contains pat) col)
  else if does_not_compile pat then Raises re_error
  else Not_covered.

(** [.astype(str)]: a missing cell becomes the text [nan] (pandas 1 and 2). *)
Definition astype_str (c : option string) : option string :=
  match c with
  | Some s => Some s
  | None => Some "nan"
  end.

(** [col.isin(values)]. *)
Definition isin (c : option string) (values : list string) : bool :=
  match c with
  | Some s => existsb (String.eqb s) values
  | None => false
  end.

(** [col >= min_population], false on a missing cell. *)
Definition cell_ge (c : option Z) (m : Z) : bool :=
  match c with
  | Some n => (m <=? n)%Z
  | None => false
  end.

(** [col == value], false on a missing cell. *)
Definition cell_eq (c : option string) (v : string) : bool :=
  match c with
  | Some s => String.eqb s v
  | None => false
  end.

(** Truth value of a string: the empty string is false. *)
Definition truthy (s : string) : bool := negb (String.eqb s "").

(** [selected_rep] and [selected_flag] come from the session state: [None]
    until a cell is clicked.  [None] and the empty string are false. *)
Definition filter_data (data : DataFrame) (states : list string)
           (search_query : string) (selected_rep selected_flag : option string)
           (min_population : Z) : outcome DataFrame :=
  let filtered_data :=
    boolean_index data
      (mask_and (map (fun r => isin (State r) states) data)
                (map (fun r => cell_ge (Population r) min_population) data)) in
  let searched :=
    if truthy search_query then
      outcome_bind (str_contains (map City filtered_data) search_query) (fun m1 =>
      outcome_bind (str_contains (map State filtered_data) search_query) (fun m2 =>
      outcome_bind (str_contains (map (fun r => astype_str (Rep_Assigned r))
                                      filtered_data) search_query) (fun m3 =>
      Returns (boolean_index filtered_data (mask_or (mask_or m1 m2) m3)))))
    else Returns filtered_data in
  outcome_bind searched (fun filtered_data =>
      let filtered_data :=
        match selected_rep with
        | Some rep =>
            if truthy rep
            then boolean_index filtered_data
                   (map (fun r => cell_eq (Rep_Assigned r) rep) filtered_data)
            else filtered_data
        | None => filtered_data
        end in
      let filtered_data :=
        match selected_flag with
        | Some flag =>
            if truthy flag
            then boolean_index filtered_data
                   (map (fun r => cell_eq (Flag r) flag) filtered_data)
            else filtered_data
        | None => filtered_data
        end in
      Returns filtered_data).

(** ** Vocabulary of the specification *)

(** One day, in nanoseconds. *)
Definition one_day : Z := (24 * 60 * 60 * 1000000000)%Z.

(** The age of an assignment in days: [age] whole days, and less than
    one day more, lie between [assignedDate] and [now]. *)
Definition age_in_days (now assignedDate age : Z) : Prop :=
  (age * one_day <= now - assignedDate < (age + 1) * one_day)%Z.

(** The deal count of the specification: a non-negative integer, 0 when
    none is recorded. *)
Definition dealCount (r : row) : Z :=
  match Deals r with
  | Some n => n
  | None => 0%Z
  end.

(** The classification rules as the specification lists them. *)
Inductive classifies (now : Z) (r : row) : string -> Prop :=
| classifies_recent d age :
    Date_Assigned_to_Rep r = Some d ->
    age_in_days now d age ->
    (age <= 210)%Z ->
    classifies now r "Blue"
| classifies_aging d age :
    Date_Assigned_to_Rep r = Some d ->
    age_in_days now d age ->
    (210 < age <= 270)%Z ->
    classifies now r "Orange"
| classifies_stale d age :
    Date_Assigned_to_Rep r = Some d ->
    age_in_days now d age ->
    (270 < age)%Z ->
    dealCount r = 0%Z ->
    classifies now r "Red"
| classifies_other_dated d age :
    Date_Assigned_to_Rep r = Some d ->
    age_in_days now d age ->
    (270 < age)%Z ->
    dealCount r <> 0%Z ->
    classifies now r "Black"
| classifies_other_undated rep :
    Date_Assigned_to_Rep r = None ->
    Rep_Assigned r = Some rep ->
    classifies now r "Black"
| classifies_available :
    Date_Assigned_to_Rep r = None ->
    Rep_Assigned r = None ->
    classifies now r "Purple".

(** A row assigned for 271 days or more whose Deals cell is empty. *)
Definition blank_deals_after_270 (now : Z) (r : row) : Prop :=
  Deals r = None
  /\ exists d, Date_Assigned_to_Rep r = Some d /\ (271 * one_day <= now - d)%Z.

(** The great-circle distance between two rows, by the formula of the
    specification; NaN when a coordinate is missing. *)
Definition great_circle (u a : row) : float :=
  match Latitude u, Longitude u, Latitude a, Longitude a with
  | Some lat1, Some lon1, Some lat2, Some lon2 =>
      Some (haversine_standard lat1 lon1 lat2 lon2)
  | _, _, _, _ => None
  end.

(** Number of rows of a frame that satisfy a test. *)
Definition count_rows (p : row -> bool) (data : DataFrame) : nat :=
  List.length (filter p data).

Definition rep_is (rep : string) (r : row) : bool := cell_eq (Rep_Assigned r) rep.

Definition rep_flag_is (rep f : string) (r : row) : bool :=
  (cell_eq (Rep_Assigned r) rep && cell_eq (Flag r) f)%bool.

(** An assigned row carries one of the four assigned flags. *)
Definition assigned_flag (r : row) : Prop :=
  Rep_Assigned r <> None ->
  Flag r = Some "Blue" \/ Flag r = Some "Orange"
  \/ Flag r = Some "Red" \/ Flag r = Some "Black".

(** Both coordinates of a row are present. *)
Definition has_coords (r : row) : bool :=
  (notna (Latitude r) && notna (Longitude r))%bool.

(** The distance the proximity filter computes between two rows. *)
Definition distance (u a : row) : float :=
  haversine (Latitude u) (Longitude u) (Latitude a) (Longitude a).

(** [x > y] on floats: false when [x] is NaN. *)
Definition float_gt (x : float) (y : R) : Prop :=
  match x with Some u => (y < u)%R | None => False end.

(** What a call of the query filter comes to when its search text has
    special characters. *)
Definition search_failure (search_query : string) : outcome DataFrame :=
  if does_not_compile search_query then Raises re_error else Not_covered.

(** The tests of the query filter on one row. *)
Definition base_ok (states : list string) (min_population : Z) (r : row) : bool :=
  (isin (State r) states && cell_ge (Population r) min_population)%bool.

Definition search_ok (search_query : string) (r : row) : bool :=
  if truthy search_query then
    (cell_contains search_query (City r)
     || cell_contains search_query (State r)
     || cell_contains search_query (astype_str (Rep_Assigned r)))%bool
  else true.

Definition selection_ok (cell : row -> option string) (selected : option string)
           (r : row) : bool :=
  match selected with
  | Some v => if truthy v then cell_eq (cell r) v else true
  | None => true
  end.

(** Example rows: a city without representative or population, a city
    without representative, an unassigned point of the equator, an
    assigned point of the equator, an unassigned city whose latitude is
    missing, and a city assigned 300 days after the epoch. *)
Definition boston : row :=
  mkRow (Some "Boston") (Some "MA") None None None None None None (Some 0%Z) None.

Definition salem : row :=
  mkRow (Some "Salem") (Some "MA") None None (Some 40000%Z)
        None None None (Some 0%Z) None.

Definition origin : row :=
  mkRow (Some "Origin") (Some "EQ") (Some 0%R) (Some 0%R) (Some 20000%Z)
        None None None (Some 0%Z) None.

Definition antipode : row :=
  mkRow (Some "Antipode") (Some "EQ") (Some 0%R) (Some 180%R) (Some 20000%Z)
        (Some "Ann") None None (Some 0%Z) None.

Definition nowhere : row :=
  mkRow (Some "Nowhere") (Some "EQ") None (Some 10%R) (Some 20000%Z)
        None None None (Some 0%Z) None.

Definition lowell : row :=
  mkRow (Some "Lowell") (Some "MA") None None (Some 110000%Z)
        (Some "Ann") (Some (300 * ns_per_day)%Z) None (Some 0%Z) None.

(** A city assigned at the epoch whose Deals cell is empty, a dated city
    without representative, and an assigned office at the place of an
    unassigned city. *)
Definition worcester : row :=
  mkRow (Some "Worcester") (Some "MA") None None (Some 200000%Z)
        (Some "Bob") (Some 0%Z) None None None.

Definition trenton : row :=
  mkRow (Some "Trenton") (Some "NJ") (Some (4022 / 100)%R) (Some (-7476 / 100)%R)
        (Some 90000%Z) None (Some 0%Z) None (Some 0%Z) None.

Definition camden_office : row :=
  mkRow (Some "Camden") (Some "NJ") (Some (3994 / 100)%R) (Some (-7512 / 100)%R)
        (Some 71000%Z) (Some "Ann") None None (Some 1%Z) None.

(** ** Map: [create_map]

    folium is taken as a recorder: a map is the location and zoom it
    was created with and the markers added to it, in the order of the
    calls.  folium refuses a location that holds NaN and raises
    [ValueError]; [create_map] gives the calls made when none is
    refused, and [folium_accepts] tells whether that is the case.  A
    popup text is a fixed template filled with cells of one row; the
    marker keeps the row in its place. *)

Inductive popup : Type :=
| city_popup (r : row)
| available_city_popup (r : row).

Record Marker : Type := mkMarker {
  location : float * float;
  marker_popup : popup;
  icon_color : string
}.

Record Map : Type := mkMap {
  map_location : float * float;
  zoom_start : Z;
  children : list Marker
}.

(** [data.dropna(subset=["Latitude", "Longitude"])]. *)
Definition dropna_coords (data : DataFrame) : DataFrame :=
  boolean_index data
    (map (fun r => (notna (Latitude r) && notna (Longitude r))%bool) data).

(** The cells of a column that are present. *)
Definition present_cells {A : Type} (col : list (option A)) : list A :=
  flat_map (fun c => match c with Some x => [x] | None => [] end) col.

Definition Rsum (l : list R) : R := fold_right Rplus 0%R l.

(** [col.mean()]: missing cells are skipped; the mean of no cell at all
    is NaN. *)
Definition column_mean (col : list float) : float :=
  match present_cells col with
  | [] => None
  | xs => Some (Rsum xs / INR (List.length xs))%R
  end.

Definition color_mapping : list (string * string) :=
  [("Blue", "blue"); ("Orange", "orange"); ("Red", "red");
   ("Black", "black"); ("Purple", "purple")].

(** [d.get(key, default)] on a dictionary with string keys. *)
Definition dict_get {V : Type} (d : list (string * V)) (key : string) (default : V) : V :=
  match lookup string_dec key d with
  | Some v => v
  | None => default
  end.

(** [row.get("Flag", default)]. *)
Definition row_get_Flag (r : row) (default : string) : string :=
  match Flag r with
  | Some f => f
  | None => default
  end.

(** [x in l] for a string and a list of strings. *)
Definition in_list (x : string) (l : list string) : bool :=
  existsb (String.eqb x) l.

(** First loop of [create_map], over the rows of [clean_data]. *)
Fixpoint add_city_markers (rows : DataFrame) (filters : list string)
         (markers : list Marker) : list Marker :=
  match rows with
  | [] => markers
  | r :: rest =>
      let flag := row_get_Flag r "Purple" in
      if in_list flag filters then
        let marker_color := dict_get color_mapping flag "gray" in
        add_city_markers rest filters
          (markers ++ [mkMarker (Latitude r, Longitude r) (city_popup r) marker_color])
      else add_city_markers rest filters markers
  end.

(** Second loop, over the rows of [available_cities]. *)
Fixpoint add_available_markers (rows : DataFrame) (markers : list Marker) : list Marker :=
  match rows with
  | [] => markers
  | r :: rest =>
      add_available_markers rest
        (markers ++ [mkMarker (Latitude r, Longitude r) (available_city_popup r) "purple"])
  end.

Definition create_map (data available_cities : DataFrame) (filters : list string) : Map :=
  let clean_data := dropna_coords data in
  let map_center := (column_mean (map Latitude clean_data),
                     column_mean (map Longitude clean_data)) in
  let m := mkMap map_center 6 [] in
  let m := mkMap (map_location m) (zoom_start m)
                 (add_city_markers clean_data filters (children m)) in
  if in_list "Purple" filters
  then mkMap (map_location m) (zoom_start m)
             (add_available_markers available_cities (children m))
  else m.

(** folium's check of a location, and of all the locations of a map. *)
Definition valid_location (loc : float * float) : bool :=
  (notna (fst loc) && notna (snd loc))%bool.

Definition folium_accepts (m : Map) : bool :=
  (valid_location (map_location m)
   && forallb (fun marker => valid_location (location marker)) (children m))%bool.

(** ** Application: [main] *)

(** The list [filters] built from the five check boxes. *)
Definition flag_filters (show_blue show_orange show_red show_black show_purple : bool)
  : list string :=
  let filters := [] in
  let filters := if show_blue then filters ++ ["Blue"] else filters in
  let filters := if show_orange then filters ++ ["Orange"] else filters in
  let filters := if show_red then filters ++ ["Red"] else filters in
  let filters := if show_black then filters ++ ["Black"] else filters in
  let filters := if show_purple then filters ++ ["Purple"] else filters in
  filters.

(** [st.session_state]: a dictionary from keys to values that are [None]
    or a string. *)
Definition session_state : Type := list (string * option string).

(** [d[key] = v]. *)
Fixpoint dict_set {V : Type} (d : list (string * V)) (key : string) (v : V)
  : list (string * V) :=
  match d with
  | [] => [(key, v)]
  | (k, w) :: d' =>
      if string_dec key k then (k, v) :: d' else (k, w) :: dict_set d' key v
  end.

(** [if key not in st.session_state: st.session_state[key] = None]. *)
Definition init_key (s : session_state) (key : string) : session_state :=
  match lookup string_dec key s with
  | Some _ => s
  | None => dict_set s key None
  end.

(** [st.session_state[key]].  [main] reads a key only after it has
    initialised it; a key that is not there yet reads as [None], the
    value the initialisation gives it. *)
Definition session_get (s : session_state) (key : string) : option string :=
  dict_get s key None.

(** The nested function [on_cell_click] of [main]. *)
Definition on_cell_click (s : session_state) (rep flag : string) : session_state :=
  if (cell_eq (session_get s "selected_rep") rep
      && cell_eq (session_get s "selected_flag") flag)%bool
  then dict_set (dict_set s "selected_rep" None) "selected_flag" None
  else dict_set (dict_set s "selected_rep" (Some rep)) "selected_flag" (Some flag).

(** What one run of [main] shows. *)
Inductive page : Type :=
| warning_page (message : string)
| dashboard_page (summary : table) (map_view : Map) (dataset_preview : DataFrame).

(** One run of [main] on the loaded frame, with the values of the side
    bar and the session state as arguments.  A run that completes
    returns the session state it leaves and the page; a run ends with
    [re.error] in the query filter or with [ValueError] when folium
    refuses a location of the map. *)
Definition main (loaded : DataFrame) (today : Z) (selected_states : list string)
           (search_query : string) (min_population : Z)
           (show_blue show_orange show_red show_black show_purple : bool)
           (session : session_state) : outcome (session_state * page) :=
  let data := assign_flags today loaded in
  let filters := flag_filters show_blue show_orange show_red show_black show_purple in
  match selected_states with
  | [] => Returns (session, warning_page "Please select at least one state to begin.")
  | _ :: _ =>
      let session := init_key session "selected_rep" in
      let session := init_key session "selected_flag" in
      let summary :=
        summarize_by_rep
          (boolean_index data (map (fun r => isin (State r) selected_states) data)) in
      outcome_bind
        (filter_data data selected_states search_query
                     (session_get session "selected_rep")
                     (session_get session "selected_flag") min_population)
        (fun filtered_data =>
           let m := create_map filtered_data (find_available_cities filtered_data)
                               filters in
           if folium_accepts m
           then Returns (session, dashboard_page summary m filtered_data)
           else Raises ValueError)
  end.

(** ** Further vocabulary *)

(** Stage of a flag in the life of an assignment. *)
Definition flag_stage (f : string) : nat :=
  if String.eqb f "Blue" then 0
  else if String.eqb f "Orange" then 1
  else 2.

(** Strict order of the index of a table. *)
Definition string_lt (a b : string) : Prop := String.compare a b = Lt.

(** The columns of a row other than [Flag]. *)
Definition loaded_columns (r : row) :=
  (City r, State r, Latitude r, Longitude r, Population r,
   Rep_Assigned r, Date_Assigned_to_Rep r, Sale_Entry_Date r, Deals r).

(** The test the proximity filter applies to one row of a frame. *)
Definition available_in (data : DataFrame) (u : row) : bool :=
  (isna (Rep_Assigned u) && negb (scan_assigned u (assigned_rows data)))%bool.

Definition set_Longitude (r : row) (lon : float) : row :=
  mkRow (City r) (State r) (Latitude r) lon (Population r)
        (Rep_Assigned r) (Date_Assigned_to_Rep r) (Sale_Entry_Date r)
        (Deals r) (Flag r).

(** One of the four flags of the summary. *)
Definition summary_flag (r : row) : bool :=
  (cell_eq (Flag r) "Blue" || cell_eq (Flag r) "Orange"
   || cell_eq (Flag r) "Red" || cell_eq (Flag r) "Black")%bool.

(** The representative of a row is one of [keys]. *)
Definition rep_among (keys : list string) (r : row) : bool :=
  match Rep_Assigned r with
  | Some rep => in_list rep keys
  | None => false
  end.

(** All the row tests of one call of the query filter together. *)
Definition row_kept (states : list string) (search_query : string)
           (selected_rep selected_flag : option string) (min_population : Z)
           (r : row) : bool :=
  (base_ok states min_population r && search_ok search_query r
   && selection_ok Rep_Assigned selected_rep r
   && selection_ok Flag selected_flag r)%bool.

(** The Total of a row of the summary. *)
Definition row_Total (r : string * list (string * nat)) : nat :=
  dict_get (snd r) "Total" 0.

(** Every location [create_map] hands to folium is a pair of numbers:
    some row of the frame has both coordinates, so that the means exist,
    and the available rows have theirs when they are drawn. *)
Definition locations_defined (data available_cities : DataFrame)
           (filters : list string) : Prop :=
  (exists r, In r data /\ has_coords r = true)
  /\ (in_list "Purple" filters = true ->
      forall r, In r available_cities -> has_coords r = true).

(** A row north of the equator up to 60 degrees and between 180 and 60
    degrees west: the region holds the United States south of Alaska's
    60th parallel. *)
Definition north_west (r : row) : Prop :=
  exists lat lon,
    Latitude r = Some lat /\ Longitude r = Some lon
    /\ (0 <= lat <= 60)%R /\ (-180 <= lon <= -60)%R.

(** Two neighbouring cities, about three miles apart: one unassigned,
    one assigned. *)
Definition camden : row :=
  mkRow (Some "Camden") (Some "NJ") (Some (3994 / 100)%R) (Some (-7512 / 100)%R)
        (Some 71000%Z) None None None (Some 0%Z) None.

Definition philadelphia : row :=
  mkRow (Some "Philadelphia") (Some "PA") (Some (3995 / 100)%R)
        (Some (-7517 / 100)%R) (Some 1600000%Z) (Some "Ann") None None
        (Some 2%Z) None.

(** The selected cell held by a session state. *)
Definition selection (s : session_state) : option string * option string :=
  (session_get s "selected_rep", session_get s "selected_flag").

(** The markers [create_map] builds for one row. *)
Definition city_marker (r : row) : Marker :=
  mkMarker (Latitude r, Longitude r) (city_popup r)
           (dict_get color_mapping (row_get_Flag r "Purple") "gray").

Definition available_marker (r : row) : Marker :=
  mkMarker (Latitude r, Longitude r) (available_city_popup r) "purple".

(** ** Classifier *)

Section Classifier.

Variable today : Z.

Lemma flags_loop (data : DataFrame) (acc : list string) :
  fold_left (fun flags r => flags ++ [row_flag today r]) data acc
  = acc ++ map (row_flag today) data.
Proof.
  revert acc. induction data as [|r data IH]; intros acc; simpl.
  - now rewrite app_nil_r.
  - rewrite IH, <- app_assoc. reflexivity.
Qed.

Lemma assign_column_Flag_map (f : row -> string) (data : DataFrame) :
  assign_column_Flag data (map f data) = map (fun r => set_Flag r (f r)) data.
Proof.
  induction data as [|r data IH]; simpl; [reflexivity|]. now rewrite IH.
Qed.

Lemma assign_flags_map (data : DataFrame) :
  assign_flags today data = map (fun r => set_Flag r (row_flag today r)) data.
Proof.
  unfold assign_flags. rewrite flags_loop. simpl. apply assign_column_Flag_map.
Qed.

Lemma row_flag_set_Flag (r : row) (f : string) :
  row_flag today (set_Flag r f) = row_flag today r.
Proof. reflexivity. Qed.

Lemma set_Flag_set_Flag (r : row) (f g : string) :
  set_Flag (set_Flag r f) g = set_Flag r g.
Proof. reflexivity. Qed.

Lemma one_day_ns : one_day = ns_per_day.
Proof. reflexivity. Qed.

(** The day field of the time delta is the age in days. *)
Lemma age_in_days_timedelta (d age : Z) :
  age_in_days today d age <-> age = timedelta_days today d.
Proof.
  unfold age_in_days, timedelta_days. rewrite one_day_ns.
  assert (Hp : (0 < ns_per_day)%Z) by reflexivity.
  split.
  - intros [H1 H2].
    apply (Z.div_unique (today - d) ns_per_day age (today - d - age * ns_per_day));
      lia.
  - intros ->.
    pose proof (Z.mul_div_le (today - d) ns_per_day Hp).
    pose proof (Z.mul_succ_div_gt (today - d) ns_per_day Hp).
    lia.
Qed.

Lemma blank_deals_old (r : row) (d : Z) :
  Date_Assigned_to_Rep r = Some d ->
  (271 * one_day <= today - d)%Z ->
  (270 < timedelta_days today d)%Z.
Proof.
  intros _ H. rewrite one_day_ns in H. unfold timedelta_days.
  assert (271 <= (today - d) / ns_per_day)%Z; [|lia].
  apply Z.div_le_lower_bound; [reflexivity | lia].
Qed.

Lemma old_after_271_days (d : Z) :
  (270 < timedelta_days today d)%Z -> (271 * one_day <= today - d)%Z.
Proof.
  intros H. rewrite one_day_ns. unfold timedelta_days in H.
  assert (Hp : (0 < ns_per_day)%Z) by reflexivity.
  pose proof (Z.mul_div_le (today - d) ns_per_day Hp).
  nia.
Qed.

Lemma row_flag_classifies (r : row) :
  ~ blank_deals_after_270 today r -> classifies today r (row_flag today r).
Proof.
  intros Hnb. unfold row_flag.
  destruct (Date_Assigned_to_Rep r) as [d|] eqn:Hd.
  - cbv zeta.
    assert (Ha : age_in_days today d (timedelta_days today d))
      by now apply age_in_days_timedelta.
    destruct (Z.leb_spec (timedelta_days today d) 210) as [H1|H1].
    + eapply classifies_recent; eauto.
    + destruct (Z.ltb_spec 210 (timedelta_days today d)) as [H2|H2]; [|lia].
      destruct (Z.leb_spec (timedelta_days today d) 270) as [H3|H3]; simpl.
      * eapply classifies_aging; eauto.
      * destruct (Z.ltb_spec 270 (timedelta_days today d)) as [H4|H4]; [|lia].
        simpl. destruct (Deals r) as [n|] eqn:Hn; simpl.
        -- destruct (Z.eqb_spec n 0) as [->|Hn0].
           ++ eapply classifies_stale; eauto. unfold dealCount. now rewrite Hn.
           ++ eapply classifies_other_dated; eauto. unfold dealCount. now rewrite Hn.
        -- exfalso. apply Hnb. split; [exact Hn|].
           exists d. split; [first [exact Hd | reflexivity]|].
           now apply old_after_271_days.
  - destruct (Rep_Assigned r) as [rep|] eqn:Hr; simpl.
    + eapply classifies_other_undated; eauto.
    + apply classifies_available; auto.
Qed.

(** The row the code gets wrong: old, with an empty Deals cell. *)
Lemma row_flag_blank_deals (r : row) :
  blank_deals_after_270 today r ->
  row_flag today r = "Black" /\ classifies today r "Red".
Proof.
  intros [Hn [d [Hd Hold]]].
  pose proof (blank_deals_old r d Hd Hold) as H270. split.
  - unfold row_flag. rewrite Hd, Hn. cbv zeta.
    destruct (Z.leb_spec (timedelta_days today d) 210) as [H1|H1]; [lia|].
    destruct (Z.leb_spec (timedelta_days today d) 270) as [H3|H3]; [lia|].
    rewrite andb_false_r. cbn [deals_eq_0]. now rewrite andb_false_r.
  - apply (classifies_stale today r d (timedelta_days today d)); auto.
    + now apply age_in_days_timedelta.
    + unfold dealCount. now rewrite Hn.
Qed.

Lemma classifies_functional (r : row) (f g : string) :
  classifies today r f -> classifies today r g -> f = g.
Proof.
  intros Hf Hg.
  destruct Hf; destruct Hg; try reflexivity; try congruence;
    repeat match goal with
           | H1 : Date_Assigned_to_Rep r = Some ?a,
             H2 : Date_Assigned_to_Rep r = Some ?b |- _ =>
               assert (a = b) by congruence; subst; clear H2
           end;
    repeat match goal with
           | H : age_in_days _ _ _ |- _ => apply age_in_days_timedelta in H
           end;
    subst; try lia; try congruence.
Qed.

End Classifier.

(** C3. The loop of [assign_flags] follows the rules of the
    specification (dated rows by age in days: at most 210 Blue, 211 to
    270 Orange, older with a deal count of 0 Red, older otherwise Black;
    undated rows with a representative Black, without one Purple; one
    category per row) on every row but one kind: a row assigned for 271
    days or more whose Deals cell is empty.  The specification counts
    its deals as 0 and makes it Red; [deals == 0] is false on the empty
    cell and the code makes it Black. *)
Theorem assign_flags_rules (today : Z) (data : DataFrame) :
  ((forall r, In r data -> ~ blank_deals_after_270 today r) ->
   Forall2 (fun r r' => exists f, classifies today r f /\ r' = set_Flag r f)
           data (assign_flags today data))
  /\ (forall r f g, classifies today r f -> classifies today r g -> f = g)
  /\ (forall r, In r data -> blank_deals_after_270 today r ->
                 In (set_Flag r "Black") (assign_flags today data)
                 /\ classifies today r "Red"
                 /\ ~ classifies today r "Black").
Proof.
  split; [|split].
  - rewrite assign_flags_map.
    induction data as [|r data IH]; intros H; simpl; constructor.
    + exists (row_flag today r). split; [|reflexivity].
      apply row_flag_classifies. apply H. now left.
    + apply IH. intros x Hx. apply H. now right.
  - intros r f g. apply classifies_functional.
  - intros r Hr Hb. destruct (row_flag_blank_deals today r Hb) as [Hf Hc].
    split; [|split].
    + rewrite assign_flags_map. apply in_map_iff. exists r.
      split; [now rewrite Hf | exact Hr].
    + exact Hc.
    + intros Hk. pose proof (classifies_functional today r _ _ Hc Hk).
      discriminate.
Qed.

Lemma assign_flags_rules_witness :
  In (set_Flag worcester "Black") (assign_flags (300 * one_day) [worcester; lowell])
  /\ classifies (300 * one_day) worcester "Red"
  /\ ~ classifies (300 * one_day) worcester "Black".
Proof.
  apply (proj2 (proj2 (assign_flags_rules (300 * one_day) [worcester; lowell]))).
  - left. reflexivity.
  - split; [reflexivity|]. exists 0%Z. split; [reflexivity|]. discriminate.
Defined.

(** C8. Classifying an already classified frame again, with the same
    date, changes nothing: the frame, and so the category of every row,
    is the one of the first run. *)
Theorem assign_flags_idempotent (today : Z) (data : DataFrame) :
  assign_flags today (assign_flags today data) = assign_flags today data
  /\ map Flag (assign_flags today (assign_flags today data))
     = map Flag (assign_flags today data).
Proof.
  assert (H : assign_flags today (assign_flags today data) = assign_flags today data).
  { rewrite !assign_flags_map, map_map. apply map_ext. intros r.
    rewrite row_flag_set_Flag. apply set_Flag_set_Flag. }
  split; [exact H | now rewrite H].
Qed.

(** ** Distance *)

Section Distance.

Local Open Scope R_scope.

Lemma radians_0 : radians 0 = 0.
Proof. unfold radians. field. Qed.

Lemma radians_180 : radians 180 = PI.
Proof. unfold radians. field. Qed.

Lemma radians_minus (x y : R) : radians (x - y) = radians x - radians y.
Proof. unfold radians. field. Qed.

Lemma atan2_0_1 : atan2 0 1 = 0.
Proof.
  unfold atan2. destruct (Rlt_dec 0 1) as [_|H]; [|lra].
  replace (0 / 1) with 0 by field. apply atan_0.
Qed.

Lemma atan2_1_0 : atan2 1 0 = PI / 2.
Proof.
  unfold atan2.
  destruct (Rlt_dec 0 0) as [H|_]; [lra|].
  destruct (Rlt_dec 0 1) as [_|H]; [reflexivity|lra].
Qed.

(** On numbers the float version computes [haversine_R]; the last
    argument plays no part. *)
Lemma haversine_Some (lat1 lon1 lat2 : R) (lon2 : float) (x : R) :
  haversine (Some lat1) (Some lon1) (Some lat2) lon2
  = Some (haversine_R lat1 lon1 lat2 x).
Proof. reflexivity. Qed.

Lemma haversine_NaN (lat1 lon1 lat2 lon2 : float) :
  lat1 = None \/ lon1 = None \/ lat2 = None ->
  haversine lat1 lon1 lat2 lon2 = None.
Proof.
  intros H. destruct lat1, lon1, lat2; try reflexivity.
  destruct H as [H | [H | H]]; discriminate H.
Qed.

Lemma convex_range (x z p : R) :
  0 <= x <= 1 -> 0 <= z <= 1 -> 0 <= p <= 1 ->
  0 <= x * (1 - p) + z * p <= 1.
Proof.
  intros [Hx0 Hx1] [Hz0 Hz1] [Hp0 Hp1].
  assert (0 <= x * (1 - p)) by (apply Rmult_le_pos; lra).
  assert (0 <= z * p) by (apply Rmult_le_pos; lra).
  assert (x * (1 - p) <= 1 * (1 - p)) by (apply Rmult_le_compat_r; lra).
  assert (z * p <= 1 * p) by (apply Rmult_le_compat_r; lra).
  lra.
Qed.

Lemma sqr_range (x y : R) : x * x + y * y = 1 -> 0 <= x * x <= 1.
Proof.
  intros H. pose proof (Rle_0_sqr x) as Hx. pose proof (Rle_0_sqr y) as Hy.
  unfold Rsqr in Hx, Hy. lra.
Qed.

(** The quantity under the square roots stays between 0 and 1, so that
    [sqrt] is never applied to a negative number. *)
Lemma haversine_a_range (p1 p2 e : R) :
  let a := sin ((p2 - p1) / 2) ^ 2 + cos p1 * cos p2 * sin (e / 2) ^ 2 in
  0 <= a <= 1.
Proof.
  intros a.
  set (h1 := p1 / 2). set (h2 := p2 / 2).
  assert (E1 : p1 = 2 * h1) by (unfold h1; field).
  assert (E2 : p2 = 2 * h2) by (unfold h2; field).
  assert (Ed : (p2 - p1) / 2 = h2 - h1) by (unfold h1, h2; field).
  pose proof (sin2_cos2 h1) as S1. pose proof (sin2_cos2 h2) as S2.
  pose proof (sin2_cos2 (e / 2)) as S3.
  unfold Rsqr in S1, S2, S3.
  assert (C1 : cos p1 = cos h1 * cos h1 - sin h1 * sin h1)
    by (rewrite E1 at 1; apply cos_2a).
  assert (C2 : cos p2 = cos h2 * cos h2 - sin h2 * sin h2)
    by (rewrite E2 at 1; apply cos_2a).
  assert (Sd : sin ((p2 - p1) / 2) = sin h2 * cos h1 - cos h2 * sin h1)
    by (rewrite Ed; apply sin_minus).
  unfold a. rewrite Sd, C1, C2. clear a Sd C1 C2 E1 E2 Ed.
  generalize dependent (sin h1). intros s1.
  generalize dependent (cos h1). intros c1 S1.
  generalize dependent (sin h2). intros s2.
  generalize dependent (cos h2). intros c2 S2.
  generalize dependent (sin (e / 2)). intros t.
  generalize dependent (cos (e / 2)). intros u S3.
  (* the sum is a convex combination, with weight t^2, of the squares
     (s2 c1 - c2 s1)^2 and (c1 c2 - s1 s2)^2 *)
  pose (x := s2 * c1 - c2 * s1). pose (z := c1 * c2 - s1 * s2).
  replace ((s2 * c1 - c2 * s1) ^ 2
           + (c1 * c1 - s1 * s1) * (c2 * c2 - s2 * s2) * t ^ 2)
    with ((x * x) * (1 - t * t) + (z * z) * (t * t))
    by (unfold x, z; ring).
  apply convex_range.
  - apply (sqr_range x (c1 * c2 + s1 * s2)).
    replace (x * x + (c1 * c2 + s1 * s2) * (c1 * c2 + s1 * s2))
      with ((s1 * s1 + c1 * c1) * (s2 * s2 + c2 * c2)) by (unfold x; ring).
    rewrite S1, S2. ring.
  - apply (sqr_range z (s1 * c2 + c1 * s2)).
    replace (z * z + (s1 * c2 + c1 * s2) * (s1 * c2 + c1 * s2))
      with ((s1 * s1 + c1 * c1) * (s2 * s2 + c2 * c2)) by (unfold z; ring).
    rewrite S1, S2. ring.
  - apply (sqr_range t u). exact S3.
Qed.

Lemma haversine_sqrt_arguments (lat1 lon1 lat2 : R) :
  let dlat := radians (lat2 - lat1) in
  let dlon := radians (lat2 - lon1) in
  let a := sin (dlat / 2) ^ 2
           + cos (radians lat1) * cos (radians lat2) * sin (dlon / 2) ^ 2 in
  0 <= a /\ 0 <= 1 - a.
Proof.
  intros dlat dlon a. unfold a, dlat. rewrite radians_minus.
  pose proof (haversine_a_range (radians lat1) (radians lat2) dlon) as H.
  cbv zeta in H. lra.
Qed.

Lemma haversine_R_equator : haversine_R 0 0 0 180 = 0.
Proof.
  unfold haversine_R. cbv zeta.
  replace (0 - 0) with 0 by ring. rewrite radians_0.
  replace (0 / 2) with 0 by field. rewrite sin_0, cos_0.
  replace (0 ^ 2 + 1 * 1 * 0 ^ 2) with 0 by ring.
  replace (1 - 0) with 1 by ring.
  rewrite sqrt_0, sqrt_1, atan2_0_1. ring.
Qed.

Lemma haversine_standard_equator :
  haversine_standard 0 0 0 180 = 39588 / 10 * PI.
Proof.
  unfold haversine_standard. cbv zeta.
  replace (0 - 0) with 0 by ring. replace (180 - 0) with 180 by ring.
  rewrite radians_0, radians_180.
  replace (0 / 2) with 0 by field. rewrite sin_0, cos_0, sin_PI2.
  replace (0 ^ 2 + 1 * 1 * 1 ^ 2) with 1 by ring.
  replace (1 - 1) with 0 by ring.
  rewrite sqrt_0, sqrt_1, atan2_1_0. field.
Qed.

End Distance.

(** C1. [haversine] does not compute the great-circle formula of the
    specification: its longitude difference is taken from [lat2] and
    [lon1], the argument [lon2] is never read, and the result is the
    formula of the specification with [lat2] in the place of [lon2].
    Between the points
    (0, 0) and (0, 180) of the equator it returns 0 miles, where the
    formula with [lon2 - lon1] gives half the circumference,
    3958.8 * PI miles. *)
Theorem haversine_not_standard :
  (forall lat1 lon1 lat2 lon2 lon2' : float,
      haversine lat1 lon1 lat2 lon2 = haversine lat1 lon1 lat2 lon2')
  /\ (forall lat1 lon1 lat2 lon2 : R,
         haversine (Some lat1) (Some lon1) (Some lat2) (Some lon2)
         = Some (haversine_standard lat1 lon1 lat2 lat2))
  /\ haversine (Some 0%R) (Some 0%R) (Some 0%R) (Some 180%R) = Some 0%R
  /\ haversine_standard 0 0 0 180 = (39588 / 10 * PI)%R
  /\ haversine_standard 0 0 0 180 <> 0%R.
Proof.
  split; [reflexivity|]. split; [reflexivity|]. split.
  - rewrite (haversine_Some 0 0 0 (Some 180%R) 180). f_equal.
    apply haversine_R_equator.
  - split; [apply haversine_standard_equator|].
    rewrite haversine_standard_equator.
    pose proof PI_RGT_0. lra.
Qed.

(** ** Proximity filter *)

Section Proximity.

Lemma boolean_index_map (p : row -> bool) (data : DataFrame) :
  boolean_index data (map p data) = filter p data.
Proof.
  induction data as [|r data IH]; simpl; [reflexivity|].
  rewrite IH. reflexivity.
Qed.

Lemma scan_assigned_existsb (u : row) (assigned : DataFrame) :
  scan_assigned u assigned
  = existsb (fun a => float_le (distance u a) 7) assigned.
Proof.
  induction assigned as [|a assigned IH]; simpl; [reflexivity|].
  fold (distance u a). destruct (float_le (distance u a) 7); simpl; auto.
Qed.

Lemma scan_unassigned_filter (unassigned assigned acc : DataFrame) :
  scan_unassigned unassigned assigned acc
  = acc ++ filter (fun u => negb (scan_assigned u assigned)) unassigned.
Proof.
  revert acc. induction unassigned as [|u unassigned IH]; intros acc; simpl.
  - now rewrite app_nil_r.
  - destruct (scan_assigned u assigned); simpl; rewrite IH; [reflexivity|].
    now rewrite <- app_assoc.
Qed.

Lemma find_available_cities_filter (data : DataFrame) :
  find_available_cities data
  = filter (fun u => negb (scan_assigned u (filter (fun r => notna (Rep_Assigned r)) data)))
           (filter (fun r => isna (Rep_Assigned r)) data).
Proof.
  unfold find_available_cities, assigned_rows, unassigned_rows.
  rewrite !boolean_index_map. apply scan_unassigned_filter.
Qed.

(** Membership in the result: an unassigned row for which the test
    [distance <= 7] fails against every assigned row. *)
Lemma find_available_cities_In (data : DataFrame) (u : row) :
  In u (find_available_cities data) <->
  In u data /\ Rep_Assigned u = None /\
  forall a, In a data -> Rep_Assigned a <> None ->
            float_le (distance u a) 7 = false.
Proof.
  rewrite find_available_cities_filter, filter_In, filter_In.
  rewrite scan_assigned_existsb, negb_true_iff.
  unfold isna. rewrite negb_true_iff.
  split.
  - intros [[Hin Hrep] Hex]. split; [exact Hin|]. split.
    + destruct (Rep_Assigned u); [discriminate|reflexivity].
    + intros a Ha Hra.
      destruct (float_le (distance u a) 7) eqn:E; [|reflexivity].
      assert (existsb (fun a0 => float_le (distance u a0) 7)
                      (filter (fun r => notna (Rep_Assigned r)) data) = true)
        as Hc; [|congruence].
      apply existsb_exists. exists a. split; [|exact E].
      apply filter_In. split; [exact Ha|].
      destruct (Rep_Assigned a); [reflexivity|congruence].
  - intros [Hin [Hrep Hall]]. split.
    + split; [exact Hin|]. now rewrite Hrep.
    + destruct (existsb _ _) eqn:E; [|reflexivity].
      apply existsb_exists in E. destruct E as [a [Ha E]].
      apply filter_In in Ha. destruct Ha as [Ha Hra].
      rewrite (Hall a Ha) in E; [discriminate|].
      destruct (Rep_Assigned a); [discriminate|discriminate].
Qed.

Lemma float_le_false_gt (x : float) (y : R) :
  x <> None -> (float_le x y = false <-> float_gt x y).
Proof.
  intros Hx. destruct x as [u|]; [|congruence]. simpl.
  destruct (Rle_dec u y) as [H|H]; split; intros H'; try discriminate;
    try reflexivity; lra.
Qed.

Lemma distance_defined (u a : row) :
  has_coords u = true -> has_coords a = true -> distance u a <> None.
Proof.
  unfold has_coords, distance. intros Hu Ha.
  destruct (Latitude u), (Longitude u), (Latitude a); discriminate.
Qed.

End Proximity.

(** The threshold test of the loops, in terms of the number [haversine]
    returns: on a frame whose rows all carry both coordinates, an
    unassigned row is in the result exactly when that number is
    strictly more than 7 for every assigned row.  A row for which the
    number is exactly 7 is left out, and when no row is assigned every
    row is returned. *)
Lemma find_available_cities_threshold (data : DataFrame) :
  (forall r, In r data -> has_coords r = true) ->
  (forall u, In u (find_available_cities data) <->
             In u data /\ Rep_Assigned u = None /\
             forall a, In a data -> Rep_Assigned a <> None ->
                       float_gt (distance u a) 7)
  /\ (forall u a, In a data -> Rep_Assigned a <> None ->
                  distance u a = Some 7%R ->
                  ~ In u (find_available_cities data))
  /\ ((forall a, In a data -> Rep_Assigned a = None) ->
      find_available_cities data = data).
Proof.
  intros Hc. split; [|split].
  - intros u. rewrite find_available_cities_In. split.
    + intros [Hin [Hrep Hall]]. repeat split; auto.
      intros a Ha Hra. apply float_le_false_gt; auto.
      apply distance_defined; auto.
    + intros [Hin [Hrep Hall]]. repeat split; auto.
      intros a Ha Hra. apply float_le_false_gt; auto.
      apply distance_defined; auto.
  - intros u a Ha Hra Hd Hin.
    apply find_available_cities_In in Hin. destruct Hin as [_ [_ Hall]].
    specialize (Hall a Ha Hra). rewrite Hd in Hall. simpl in Hall.
    destruct (Rle_dec 7 7) as [_|H]; [discriminate|]. apply H. lra.
  - intros Hnone. rewrite find_available_cities_filter.
    assert (Hempty : filter (fun r => notna (Rep_Assigned r)) data = []).
    { clear Hc. induction data as [|r data IH]; simpl; [reflexivity|].
      rewrite (Hnone r (or_introl eq_refl)). simpl.
      apply IH. intros a Ha. apply Hnone. now right. }
    rewrite Hempty. simpl.
    clear Hc Hempty. induction data as [|r data IH]; simpl; [reflexivity|].
    unfold isna at 1. rewrite (Hnone r (or_introl eq_refl)). simpl.
    f_equal. apply IH. intros a Ha. apply Hnone. now right.
Qed.

(** C4. The proximity filter partitions the frame on the representative
    alone; the coordinates are not inspected, and a row is in one of the
    two partitions whether or not its coordinates are present.  An
    unassigned row with a missing latitude or longitude has a NaN
    distance to every assigned row, no comparison [distance <= 7]
    succeeds, and the row is returned as available. *)
Theorem find_available_cities_keeps_missing_coordinates
        (data : DataFrame) (u : row) :
  In u data ->
  Latitude u = None \/ Longitude u = None ->
  (Rep_Assigned u <> None -> In u (assigned_rows data))
  /\ (Rep_Assigned u = None ->
      In u (unassigned_rows data) /\ In u (find_available_cities data)).
Proof.
  intros Hin Hnan. unfold assigned_rows, unassigned_rows.
  rewrite !boolean_index_map. split.
  - intros Hrep. apply filter_In. split; [exact Hin|].
    destruct (Rep_Assigned u); [reflexivity|congruence].
  - intros Hrep. split.
    + apply filter_In. split; [exact Hin|]. unfold isna. now rewrite Hrep.
    + apply find_available_cities_In.
      split; [exact Hin|]. split; [exact Hrep|].
      intros a _ _. unfold distance.
      rewrite haversine_NaN; [reflexivity|]. tauto.
Qed.

(** ** Aggregator *)

Section Aggregator.

Lemma lookup_map_key {K V : Type} (eq_dec : forall a b : K, {a = b} + {a <> b})
      (f : K -> V) (k : K) (l : list K) :
  lookup eq_dec k (map (fun x => (x, f x)) l)
  = if in_dec eq_dec k l then Some (f k) else None.
Proof.
  induction l as [|x l IH]; simpl; [reflexivity|].
  destruct (eq_dec k x) as [E|Hne].
  - subst x. destruct (eq_dec k k) as [E|H]; [reflexivity|congruence].
  - rewrite IH. destruct (eq_dec x k) as [E|H]; [congruence|].
    destruct (in_dec eq_dec k l); reflexivity.
Qed.

Lemma In_insert_sorted (x y : string) (l : list string) :
  In y (insert_sorted x l) <-> y = x \/ In y l.
Proof.
  induction l as [|z l IH]; simpl.
  - intuition.
  - destruct (String.compare x z) eqn:E; simpl.
    + apply String.compare_eq_iff in E. subst z. intuition.
    + intuition.
    + rewrite IH. intuition.
Qed.

Lemma In_sort_uniq (y : string) (l : list string) :
  In y (sort_uniq l) <-> In y l.
Proof.
  unfold sort_uniq. induction l as [|x l IH]; simpl; [tauto|].
  rewrite In_insert_sorted, IH. intuition.
Qed.

Lemma count_occ_labels (data : DataFrame) (rep f : string) :
  count_occ rep_flag_eq_dec (rep_flag_labels data) (rep, f)
  = count_rows (rep_flag_is rep f) data.
Proof.
  unfold count_rows, rep_flag_is, rep_flag_labels.
  induction data as [|r data IH]; simpl; [reflexivity|].
  rewrite count_occ_app, IH.
  destruct (Rep_Assigned r) as [rep'|]; simpl; [|reflexivity].
  destruct (Flag r) as [f'|]; simpl.
  - destruct (rep_flag_eq_dec (rep', f') (rep, f)) as [E|NE].
    + injection E as -> ->. rewrite !String.eqb_refl. reflexivity.
    + destruct (String.eqb_spec rep' rep) as [->|]; simpl; [|reflexivity].
      destruct (String.eqb_spec f' f) as [->|]; simpl; [congruence|reflexivity].
  - now rewrite andb_false_r.
Qed.

(** A cell of the unstacked table, and of the reindexed one, is the
    number of rows with that representative and that flag. *)
Lemma counts_cell (data : DataFrame) (rep f : string) :
  match lookup rep_flag_eq_dec (rep, f) (groupby_value_counts data) with
  | Some n => n
  | None => 0
  end = count_rows (rep_flag_is rep f) data.
Proof.
  unfold groupby_value_counts.
  rewrite (lookup_map_key rep_flag_eq_dec
             (count_occ rep_flag_eq_dec (rep_flag_labels data))).
  rewrite <- count_occ_labels.
  destruct (in_dec _ _ _) as [_|Hn]; [reflexivity|].
  symmetry. apply count_occ_not_In. intros H. apply Hn. now apply nodup_In.
Qed.

Lemma reindexed_cell (data : DataFrame) (rep f : string) (columns : list string) :
  match lookup string_dec f
          (map (fun c => (c, match lookup rep_flag_eq_dec (rep, c)
                                     (groupby_value_counts data) with
                             | Some n => n
                             | None => 0
                             end)) columns) with
  | Some n => n
  | None => 0
  end = if in_dec string_dec f columns
        then count_rows (rep_flag_is rep f) data else 0.
Proof.
  rewrite (lookup_map_key string_dec
             (fun c => match lookup rep_flag_eq_dec (rep, c)
                               (groupby_value_counts data) with
                       | Some n => n
                       | None => 0
                       end)).
  destruct (in_dec string_dec f columns); [apply counts_cell|reflexivity].
Qed.

Lemma flag_column_present (data : DataFrame) (rep f : string) :
  count_rows (rep_flag_is rep f) data <> 0 ->
  In f (sort_uniq (map (fun e => snd (fst e)) (groupby_value_counts data))).
Proof.
  intros Hc. apply In_sort_uniq.
  unfold groupby_value_counts. rewrite map_map. simpl.
  apply in_map_iff. exists (rep, f). split; [reflexivity|].
  apply nodup_In. rewrite <- count_occ_labels in Hc.
  destruct (in_dec rep_flag_eq_dec (rep, f) (rep_flag_labels data)) as [H|H];
    [exact H|].
  apply (count_occ_not_In rep_flag_eq_dec) in H. contradiction.
Qed.

Lemma summary_cell (data : DataFrame) (rep f : string) :
  match lookup string_dec f
          (map (fun c => (c, match lookup rep_flag_eq_dec (rep, c)
                                     (groupby_value_counts data) with
                             | Some n => n
                             | None => 0
                             end))
               (sort_uniq (map (fun e => snd (fst e)) (groupby_value_counts data)))) with
  | Some n => n
  | None => 0
  end = count_rows (rep_flag_is rep f) data.
Proof.
  rewrite reindexed_cell.
  destruct (in_dec _ _ _) as [_|Hn]; [reflexivity|].
  destruct (Nat.eq_dec (count_rows (rep_flag_is rep f) data) 0) as [E|NE];
    [now rewrite E|].
  exfalso. apply Hn. now apply (flag_column_present data rep f).
Qed.

End Aggregator.

Section Summary.

Lemma summary_index_In (data : DataFrame) (rep : string) :
  In rep (sort_uniq (map (fun e => fst (fst e)) (groupby_value_counts data)))
  <-> exists r f, In r data /\ Rep_Assigned r = Some rep /\ Flag r = Some f.
Proof.
  rewrite In_sort_uniq. unfold groupby_value_counts. rewrite map_map. simpl.
  rewrite in_map_iff. split.
  - intros [[rep' f] [E H]]. simpl in E. subst rep'.
    apply nodup_In in H. unfold rep_flag_labels in H.
    apply in_flat_map in H. destruct H as [r [Hr Hl]].
    exists r, f. split; [exact Hr|].
    destruct (Rep_Assigned r) as [a|]; [|destruct Hl].
    destruct (Flag r) as [b|]; [|destruct Hl].
    destruct Hl as [E|[]]. now inversion E.
  - intros [r [f [Hr [Hrep Hf]]]]. exists (rep, f). split; [reflexivity|].
    apply nodup_In. unfold rep_flag_labels. apply in_flat_map.
    exists r. split; [exact Hr|]. rewrite Hrep, Hf. now left.
Qed.

Lemma summarize_by_rep_rows (data : DataFrame) :
  summarize_by_rep data
  = map (fun rep =>
           (rep,
            [("Blue", count_rows (rep_flag_is rep "Blue") data);
             ("Orange", count_rows (rep_flag_is rep "Orange") data);
             ("Red", count_rows (rep_flag_is rep "Red") data);
             ("Black", count_rows (rep_flag_is rep "Black") data);
             ("Total", count_rows (rep_flag_is rep "Blue") data
                       + count_rows (rep_flag_is rep "Orange") data
                       + count_rows (rep_flag_is rep "Red") data
                       + count_rows (rep_flag_is rep "Black") data)]))
        (sort_uniq (map (fun e => fst (fst e)) (groupby_value_counts data))).
Proof.
  unfold summarize_by_rep, add_Total, reindex_columns, unstack.
  rewrite !map_map. apply map_ext. intros rep.
  cbn [fst snd map app list_sum].
  rewrite !summary_cell. unfold list_sum. cbn [fold_right].
  match goal with
  | |- context [?b + (?o + (?d + (?k + 0)))] =>
      replace (b + (o + (d + (k + 0)))) with (b + o + d + k) by lia
  end.
  reflexivity.
Qed.

Lemma labels_of_assigned (data : DataFrame) :
  rep_flag_labels (filter (fun r => notna (Rep_Assigned r)) data)
  = rep_flag_labels data.
Proof.
  unfold rep_flag_labels.
  induction data as [|r data IH]; simpl; [reflexivity|].
  destruct (Rep_Assigned r) as [rep|] eqn:E; simpl.
  - rewrite E, IH. reflexivity.
  - exact IH.
Qed.

Lemma summarize_by_rep_labels (d1 d2 : DataFrame) :
  rep_flag_labels d1 = rep_flag_labels d2 ->
  summarize_by_rep d1 = summarize_by_rep d2.
Proof.
  intros H. unfold summarize_by_rep, groupby_value_counts. now rewrite H.
Qed.

End Summary.

(** C7. The summary has a row only for representatives that occur in
    the frame, rows without a representative contribute nothing, every
    representative with a classified row has a row, and each row carries
    the four columns Blue, Orange, Red, Black, in this order, holding
    the number of rows of that representative with that flag (0 when
    there is none), followed by Total, the sum of the four. *)
Theorem summarize_by_rep_counts (data : DataFrame) :
  (forall rep cells,
      In (rep, cells) (summarize_by_rep data) ->
      (exists r, In r data /\ Rep_Assigned r = Some rep)
      /\ exists b o d k,
          cells = [("Blue", b); ("Orange", o); ("Red", d); ("Black", k);
                   ("Total", b + o + d + k)]
          /\ b = count_rows (rep_flag_is rep "Blue") data
          /\ o = count_rows (rep_flag_is rep "Orange") data
          /\ d = count_rows (rep_flag_is rep "Red") data
          /\ k = count_rows (rep_flag_is rep "Black") data)
  /\ (forall r rep f,
         In r data -> Rep_Assigned r = Some rep -> Flag r = Some f ->
         exists cells, In (rep, cells) (summarize_by_rep data))
  /\ summarize_by_rep data
     = summarize_by_rep (filter (fun r => notna (Rep_Assigned r)) data).
Proof.
  split; [|split].
  - intros rep cells H. rewrite summarize_by_rep_rows in H.
    apply in_map_iff in H. destruct H as [rep' [E Hin]].
    inversion E; subst rep' cells; clear E.
    apply summary_index_In in Hin. destruct Hin as [r [f [Hr [Hrep _]]]].
    split; [exists r; auto|].
    do 4 eexists. split; [reflexivity|]. repeat split.
  - intros r rep f Hr Hrep Hf. rewrite summarize_by_rep_rows.
    eexists. apply in_map_iff. exists rep. split; [reflexivity|].
    apply summary_index_In. exists r, f. auto.
  - apply summarize_by_rep_labels. symmetry. apply labels_of_assigned.
Qed.

Section Totals.

Variable today : Z.

Lemma row_flag_assigned (r : row) :
  Rep_Assigned r <> None ->
  row_flag today r = "Blue" \/ row_flag today r = "Orange"
  \/ row_flag today r = "Red" \/ row_flag today r = "Black".
Proof.
  intros Hrep. unfold row_flag.
  destruct (Date_Assigned_to_Rep r) as [d|].
  - cbv zeta.
    destruct (timedelta_days today d <=? 210)%Z; [now left|].
    destruct ((210 <? timedelta_days today d) && (timedelta_days today d <=? 270))%Z;
      [now right; left|].
    destruct ((270 <? timedelta_days today d)%Z && deals_eq_0 (Deals r));
      [now right; right; left | now right; right; right].
  - destruct (Rep_Assigned r); [simpl; now right; right; right | congruence].
Qed.

Lemma count_rows_cons (p : row -> bool) (r : row) (data : DataFrame) :
  count_rows p (r :: data) = (if p r then 1 else 0) + count_rows p data.
Proof. unfold count_rows. simpl. destruct (p r); reflexivity. Qed.

(** In a frame whose assigned rows carry one of the four flags, the
    four counts of a representative add up to the number of its rows. *)
Lemma total_counts (data : DataFrame) (rep : string) :
  Forall assigned_flag data ->
  count_rows (rep_flag_is rep "Blue") data
  + count_rows (rep_flag_is rep "Orange") data
  + count_rows (rep_flag_is rep "Red") data
  + count_rows (rep_flag_is rep "Black") data
  = count_rows (rep_is rep) data.
Proof.
  induction 1 as [|r data Hr _ IH]; [reflexivity|].
  rewrite !count_rows_cons. unfold rep_flag_is at 1 3 5 7. fold (rep_is rep r).
  destruct (rep_is rep r) eqn:E; cbn [andb].
  - assert (Hrep : Rep_Assigned r <> None).
    { intros H. unfold rep_is in E. rewrite H in E. discriminate. }
    destruct (Hr Hrep) as [H|[H|[H|H]]]; rewrite H;
      cbn [cell_eq String.eqb Ascii.eqb Bool.eqb]; lia.
  - lia.
Qed.

Lemma assign_flags_assigned_flag (data : DataFrame) :
  Forall assigned_flag (assign_flags today data).
Proof.
  rewrite assign_flags_map. apply Forall_forall. intros r' Hr'.
  apply in_map_iff in Hr'. destruct Hr' as [r [<- _]].
  intros Hrep. cbn [Flag set_Flag].
  destruct (row_flag_assigned r Hrep) as [H|[H|[H|H]]]; rewrite H; tauto.
Qed.

Lemma count_rep_assign_flags (data : DataFrame) (rep : string) :
  count_rows (rep_is rep) (assign_flags today data) = count_rows (rep_is rep) data.
Proof.
  rewrite assign_flags_map.
  induction data as [|r data IH]; [reflexivity|].
  cbn [map]. rewrite !count_rows_cons, IH. reflexivity.
Qed.

Lemma Forall_filter (P : row -> Prop) (p : row -> bool) (data : DataFrame) :
  Forall P data -> Forall P (filter p data).
Proof.
  intros H. apply Forall_forall. intros r Hr. apply filter_In in Hr.
  destruct Hr as [Hr _]. revert r Hr. now apply Forall_forall.
Qed.

End Totals.

(** C9. A row with a representative is classified Blue, Orange, Red or
    Black, never Purple; so in the summary of a classified frame, and of
    any selection of rows of a classified frame, every representative
    that carries a row has a row of the summary, and the Total of a
    representative is the number of rows that carry this
    representative. *)
Theorem assigned_rows_total (today : Z) (data : DataFrame) :
  (forall r, Rep_Assigned r <> None ->
             In (row_flag today r) ["Blue"; "Orange"; "Red"; "Black"]
             /\ row_flag today r <> "Purple")
  /\ (forall rep cells,
         In (rep, cells) (summarize_by_rep (assign_flags today data)) ->
         lookup string_dec "Total" cells = Some (count_rows (rep_is rep) data))
  /\ (forall (p : row -> bool) rep cells,
         In (rep, cells) (summarize_by_rep (filter p (assign_flags today data))) ->
         lookup string_dec "Total" cells
         = Some (count_rows (rep_is rep) (filter p (assign_flags today data))))
  /\ (forall r rep,
         In r data -> Rep_Assigned r = Some rep ->
         exists cells,
           In (rep, cells) (summarize_by_rep (assign_flags today data))
           /\ lookup string_dec "Total" cells = Some (count_rows (rep_is rep) data)
           /\ 1 <= count_rows (rep_is rep) data)
  /\ (forall (p : row -> bool) r rep,
         In r (filter p (assign_flags today data)) -> Rep_Assigned r = Some rep ->
         exists cells,
           In (rep, cells) (summarize_by_rep (filter p (assign_flags today data)))
           /\ lookup string_dec "Total" cells
              = Some (count_rows (rep_is rep) (filter p (assign_flags today data)))).
Proof.
  assert (P2 : forall rep cells,
             In (rep, cells) (summarize_by_rep (assign_flags today data)) ->
             lookup string_dec "Total" cells = Some (count_rows (rep_is rep) data)).
  { intros rep cells H. rewrite summarize_by_rep_rows in H.
    apply in_map_iff in H. destruct H as [rep' [E _]].
    inversion E; subst rep' cells; clear E.
    cbn. f_equal. rewrite <- (count_rep_assign_flags today).
    apply total_counts, assign_flags_assigned_flag. }
  assert (P3 : forall (p : row -> bool) rep cells,
             In (rep, cells) (summarize_by_rep (filter p (assign_flags today data))) ->
             lookup string_dec "Total" cells
             = Some (count_rows (rep_is rep) (filter p (assign_flags today data)))).
  { intros p rep cells H. rewrite summarize_by_rep_rows in H.
    apply in_map_iff in H. destruct H as [rep' [E _]].
    inversion E; subst rep' cells; clear E.
    cbn. f_equal.
    apply total_counts, Forall_filter, assign_flags_assigned_flag. }
  assert (Ex : forall d r rep f,
             In r d -> Rep_Assigned r = Some rep -> Flag r = Some f ->
             exists cells, In (rep, cells) (summarize_by_rep d)).
  { intros d r rep f Hr Hrep Hf. rewrite summarize_by_rep_rows.
    eexists. apply in_map_iff. exists rep. split; [reflexivity|].
    apply summary_index_In. exists r, f. auto. }
  split; [|split; [exact P2|split; [exact P3|split]]].
  - intros r Hrep.
    destruct (row_flag_assigned today r Hrep) as [H|[H|[H|H]]]; rewrite H;
      split; simpl; try tauto; discriminate.
  - intros r rep Hr Hrep.
    destruct (Ex (assign_flags today data) (set_Flag r (row_flag today r)) rep
                 (row_flag today r)) as [cells Hc]; try reflexivity.
    + rewrite assign_flags_map. apply in_map_iff. exists r. auto.
    + exact Hrep.
    + exists cells. split; [exact Hc|]. split; [now apply P2|].
      clear - Hr Hrep. induction data as [|x data IH]; [destruct Hr|].
      rewrite count_rows_cons. destruct Hr as [->|Hr].
      * unfold rep_is. rewrite Hrep. cbn [cell_eq]. rewrite String.eqb_refl. lia.
      * specialize (IH Hr). lia.
  - intros p r rep Hr Hrep.
    assert (Hf : exists f, Flag r = Some f).
    { apply filter_In in Hr. destruct Hr as [Hr _].
      rewrite assign_flags_map in Hr. apply in_map_iff in Hr.
      destruct Hr as [r0 [<- _]]. eexists. reflexivity. }
    destruct Hf as [f Hf].
    destruct (Ex _ r rep f Hr Hrep Hf) as [cells Hc].
    exists cells. split; [exact Hc | now apply P3].
Qed.

(** ** Query filter *)

Section QueryFilter.

Lemma mask_and_map {A : Type} (f g : A -> bool) (l : list A) :
  mask_and (map f l) (map g l) = map (fun x => (f x && g x)%bool) l.
Proof. induction l as [|x l IH]; simpl; [reflexivity|]. now rewrite IH. Qed.

Lemma mask_or_map {A : Type} (f g : A -> bool) (l : list A) :
  mask_or (map f l) (map g l) = map (fun x => (f x || g x)%bool) l.
Proof. induction l as [|x l IH]; simpl; [reflexivity|]. now rewrite IH. Qed.

Lemma str_contains_map (cell : row -> option string) (data : DataFrame) (pat : string) :
  str_contains (map cell data) pat
  = if plain_pattern pat
    then Returns (map (fun r => cell_contains pat (cell r)) data)
    else if does_not_compile pat then Raises re_error else Not_covered.
Proof. unfold str_contains. now rewrite map_map. Qed.



Lemma selection_filter (cell : row -> option string) (selected : option string)
      (data : DataFrame) :
  match selected with
  | Some v =>
      if truthy v
      then boolean_index data (map (fun r => cell_eq (cell r) v) data)
      else data
  | None => data
  end = filter (selection_ok cell selected) data.
Proof.
  unfold selection_ok. destruct selected as [v|].
  - destruct (truthy v).
    + apply boolean_index_map.
    + induction data as [|r data IH]; simpl; [reflexivity|]. now rewrite <- IH.
  - induction data as [|r data IH]; simpl; [reflexivity|]. now rewrite <- IH.
Qed.

Lemma filter_true (data : DataFrame) : filter (fun _ => true) data = data.
Proof. induction data as [|r data IH]; simpl; [reflexivity|]. now rewrite IH. Qed.

(** The result of [filter_data], as successive row filters.  A search
    text with regular-expression characters is the one case without a
    frame. *)
Lemma filter_data_filters (data : DataFrame) (states : list string)
      (search_query : string) (selected_rep selected_flag : option string)
      (min_population : Z) :
  filter_data data states search_query selected_rep selected_flag min_population
  = if (truthy search_query && negb (plain_pattern search_query))%bool
    then search_failure search_query
    else Returns (filter (selection_ok Flag selected_flag)
                 (filter (selection_ok Rep_Assigned selected_rep)
                    (filter (search_ok search_query)
                       (filter (base_ok states min_population) data)))).
Proof.
  unfold filter_data.
  rewrite mask_and_map, boolean_index_map. fold (base_ok states min_population).
  set (fd := filter (base_ok states min_population) data).
  rewrite !str_contains_map.
  unfold search_ok.
  destruct (truthy search_query); simpl.
  - destruct (plain_pattern search_query); simpl.
    2:{ unfold search_failure. destruct (does_not_compile search_query); reflexivity. }
    rewrite !mask_or_map, boolean_index_map.
    rewrite (selection_filter Rep_Assigned), (selection_filter Flag). reflexivity.
  - rewrite filter_true.
    rewrite (selection_filter Rep_Assigned), (selection_filter Flag). reflexivity.
Qed.

Lemma filter_data_In (data : DataFrame) (states : list string)
      (search_query : string) (selected_rep selected_flag : option string)
      (min_population : Z) (out : DataFrame) (r : row) :
  filter_data data states search_query selected_rep selected_flag min_population
  = Returns out ->
  (In r out <->
   In r data /\ base_ok states min_population r = true
   /\ search_ok search_query r = true
   /\ selection_ok Rep_Assigned selected_rep r = true
   /\ selection_ok Flag selected_flag r = true).
Proof.
  rewrite filter_data_filters.
  destruct (truthy search_query && negb (plain_pattern search_query))%bool.
  - unfold search_failure. destruct (does_not_compile search_query); discriminate.
  - intros H. injection H as <-. rewrite !filter_In. tauto.
Qed.

End QueryFilter.

(** C5 (as the code has it). A row kept by the query filter has its
    population present and at least [min_population]; a row whose
    population is missing is dropped for every floor, 0 included. *)
Theorem filter_data_population_floor (data : DataFrame) (states : list string)
        (search_query : string) (selected_rep selected_flag : option string)
        (min_population : Z) (out : DataFrame) :
  filter_data data states search_query selected_rep selected_flag min_population
  = Returns out ->
  (forall r, In r out ->
             exists n, Population r = Some n /\ (min_population <= n)%Z)
  /\ (forall r, Population r = None -> ~ In r out).
Proof.
  intros H.
  assert (K : forall r, In r out ->
                        exists n, Population r = Some n /\ (min_population <= n)%Z).
  { intros r Hr. apply (filter_data_In _ _ _ _ _ _ _ r H) in Hr.
    destruct Hr as [_ [Hb _]]. unfold base_ok in Hb.
    apply andb_true_iff in Hb. destruct Hb as [_ Hp].
    destruct (Population r) as [n|]; [|discriminate].
    exists n. split; [reflexivity|]. now apply Z.leb_le. }
  split; [exact K|].
  intros r Hnone Hr. destruct (K r Hr) as [n [E _]]. congruence.
Qed.



(** C5, the claim as written fails: a row without population is dropped
    by the query filter with a floor of 0, although its state is
    selected and no other filter is active. *)
Lemma absent_population_dropped_at_floor_0 :
  Population boston = None
  /\ isin (State boston) ["MA"] = true
  /\ filter_data [boston] ["MA"] "" None None 0 = Returns [].
Proof. repeat split. Qed.

(** C6. A row without representative is kept by the search for the
    text [nan]: neither its city nor its state contains the text, the
    match is on the representative column, whose missing cell
    [astype(str)] has turned into the text [nan] before [na=False]
    could apply. *)
Theorem absent_representative_matches_nan :
  Rep_Assigned salem = None
  /\ cell_contains "nan" (City salem) = false
  /\ cell_contains "nan" (State salem) = false
  /\ str_contains [astype_str (Rep_Assigned salem)] "nan" = Returns [true]
  /\ filter_data [salem] ["MA"] "nan" None None 0 = Returns [salem].
Proof. repeat split. Qed.

(** ** Instances on concrete frames *)

Lemma find_available_cities_threshold_instance :
  (forall r, In r [origin; antipode] -> has_coords r = true)
  /\ ~ In origin (find_available_cities [origin; antipode]).
Proof.
  assert (Hc : forall r, In r [origin; antipode] -> has_coords r = true).
  { intros r [<-|[<-|[]]]; reflexivity. }
  split; [exact Hc|].
  destruct (find_available_cities_threshold [origin; antipode] Hc) as [Hiff _].
  intros Hin. apply Hiff in Hin. destruct Hin as [_ [_ Hall]].
  assert (Hd : float_gt (distance origin antipode) 7).
  { apply Hall; [right; left; reflexivity | discriminate]. }
  unfold distance in Hd. cbn [Latitude Longitude origin antipode] in Hd.
  rewrite (haversine_Some 0 0 0 (Some 180%R) 180), haversine_R_equator in Hd.
  simpl in Hd. lra.
Qed.

Lemma find_available_cities_keeps_missing_coordinates_witness :
  Latitude nowhere = None
  /\ In nowhere (unassigned_rows [nowhere; antipode])
  /\ In nowhere (find_available_cities [nowhere; antipode]).
Proof.
  split; [reflexivity|].
  apply (find_available_cities_keeps_missing_coordinates
           [nowhere; antipode] nowhere).
  - left; reflexivity.
  - left; reflexivity.
  - reflexivity.
Defined.

Lemma filter_data_population_floor_witness :
  (forall r, In r [salem] ->
             exists n, Population r = Some n /\ (0 <= n)%Z)
  /\ (forall r, Population r = None -> ~ In r [salem]).
Proof.
  apply (filter_data_population_floor [salem; boston] ["MA"] "" None None 0).
  reflexivity.
Defined.


(** ** More on the classifier *)

Section ClassifierMore.

Variable today : Z.

Lemma row_flag_five (r : row) :
  In (row_flag today r) ["Blue"; "Orange"; "Red"; "Black"; "Purple"].
Proof.
  unfold row_flag. destruct (Date_Assigned_to_Rep r) as [d|].
  - cbv zeta.
    destruct (timedelta_days today d <=? 210)%Z; [simpl; tauto|].
    destruct ((210 <? timedelta_days today d) && (timedelta_days today d <=? 270))%Z;
      [simpl; tauto|].
    destruct ((270 <? timedelta_days today d)%Z && deals_eq_0 (Deals r));
      simpl; tauto.
  - destruct (notna (Rep_Assigned r)); simpl; tauto.
Qed.

Lemma ns_per_day_pos : (0 < ns_per_day)%Z.
Proof. reflexivity. Qed.

(** Whole days against a bound, in nanoseconds. *)
Lemma timedelta_days_le (d n : Z) :
  (timedelta_days today d <= n <-> today - d < (n + 1) * ns_per_day)%Z.
Proof.
  unfold timedelta_days. pose proof ns_per_day_pos as Hp. split; intros H.
  - apply Z.nle_gt. intros Hc.
    assert (n + 1 <= (today - d) / ns_per_day)%Z; [|lia].
    apply Z.div_le_lower_bound; lia.
  - assert ((today - d) / ns_per_day < n + 1)%Z; [|lia].
    apply Z.div_lt_upper_bound; lia.
Qed.

Lemma timedelta_days_mono (today' d : Z) :
  (today <= today' ->
   timedelta_days today d <= timedelta_days today' d)%Z.
Proof.
  intros H. unfold timedelta_days. apply Z.div_le_mono; [reflexivity | lia].
Qed.

End ClassifierMore.

(** X1. Classification keeps every row, in order, changes no column
    other than Flag, and leaves in every row one of the five flags. *)
Theorem assign_flags_keeps_columns (today : Z) (data : DataFrame) :
  map loaded_columns (assign_flags today data) = map loaded_columns data
  /\ Forall (fun r => exists f, Flag r = Some f
                       /\ In f ["Blue"; "Orange"; "Red"; "Black"; "Purple"])
            (assign_flags today data).
Proof.
  rewrite assign_flags_map. split.
  - rewrite map_map. apply map_ext. reflexivity.
  - apply Forall_forall. intros r' H. apply in_map_iff in H.
    destruct H as [r [<- _]]. exists (row_flag today r).
    split; [reflexivity | apply row_flag_five].
Qed.

(** X2. In a classified frame a row is Purple exactly when it has
    neither an assignment date nor a representative; a dated row without
    representative carries an assigned flag. *)
Theorem purple_iff_undated_unassigned (today : Z) (data : DataFrame) (r : row) :
  In r (assign_flags today data) ->
  (Flag r = Some "Purple" <->
   Date_Assigned_to_Rep r = None /\ Rep_Assigned r = None).
Proof.
  rewrite assign_flags_map. intros H. apply in_map_iff in H.
  destruct H as [r0 [<- _]]. cbn [Flag Date_Assigned_to_Rep Rep_Assigned set_Flag].
  unfold row_flag. destruct (Date_Assigned_to_Rep r0) as [d|].
  - cbv zeta. split; [|intros [H _]; discriminate].
    destruct (timedelta_days today d <=? 210)%Z; [discriminate|].
    destruct ((210 <? timedelta_days today d) && (timedelta_days today d <=? 270))%Z;
      [discriminate|].
    destruct ((270 <? timedelta_days today d)%Z && deals_eq_0 (Deals r0));
      discriminate.
  - destruct (Rep_Assigned r0); simpl; split; try discriminate; try tauto.
    intros [_ H]; discriminate.
Qed.

Lemma purple_iff_undated_unassigned_witness :
  Flag (set_Flag salem "Purple") = Some "Purple" <->
  Date_Assigned_to_Rep (set_Flag salem "Purple") = None
  /\ Rep_Assigned (set_Flag salem "Purple") = None.
Proof.
  apply (purple_iff_undated_unassigned 0 [salem; lowell]).
  left. reflexivity.
Defined.

(** X3. The day boundaries of a dated row, in elapsed time: Blue while
    less than 211 full days have passed since the assignment (dates in
    the future included), Orange from 211 days and before 271 days, Red
    or Black from 271 days on. *)
Theorem row_flag_day_boundaries (today : Z) (r : row) (d : Z) :
  Date_Assigned_to_Rep r = Some d ->
  (row_flag today r = "Blue" <-> (today - d < 211 * ns_per_day)%Z)
  /\ (row_flag today r = "Orange" <->
      (211 * ns_per_day <= today - d < 271 * ns_per_day)%Z)
  /\ (row_flag today r = "Red" \/ row_flag today r = "Black" <->
      (271 * ns_per_day <= today - d)%Z).
Proof.
  intros Hd. unfold row_flag. rewrite Hd. cbv zeta.
  pose proof (timedelta_days_le today d 210) as [P1 P2].
  pose proof (timedelta_days_le today d 270) as [Q1 Q2].
  change (210 + 1)%Z with 211%Z in P1, P2.
  change (270 + 1)%Z with 271%Z in Q1, Q2.
  pose proof ns_per_day_pos as Hp.
  set (x := timedelta_days today d) in *.
  set (t := (today - d)%Z) in *. set (N := ns_per_day) in *.
  destruct (Z.leb_spec x 210) as [A|A].
  - specialize (P1 A).
    split; [split; [intros _; exact P1 | reflexivity]|].
    split; [split; [discriminate | lia]|].
    split; [intros [H|H]; discriminate | lia].
  - assert (B : (211 * N <= t)%Z).
    { apply Z.nlt_ge. intros H. apply P2 in H. lia. }
    destruct (Z.ltb_spec 210 x) as [_|E]; [|lia].
    destruct (Z.leb_spec x 270) as [C|C]; cbn [andb].
    + specialize (Q1 C).
      split; [split; [discriminate | lia]|].
      split; [split; [intros _; lia | reflexivity]|].
      split; [intros [H|H]; discriminate | lia].
    + assert (D : (271 * N <= t)%Z).
      { apply Z.nlt_ge. intros H. apply Q2 in H. lia. }
      destruct (Z.ltb_spec 270 x) as [_|E]; [|lia]. cbn [andb].
      destruct (deals_eq_0 (Deals r)).
      * split; [split; [discriminate | lia]|].
        split; [split; [discriminate | lia]|].
        split; [intros _; exact D | intros _; now left].
      * split; [split; [discriminate | lia]|].
        split; [split; [discriminate | lia]|].
        split; [intros _; exact D | intros _; now right].
Qed.

Lemma row_flag_day_boundaries_witness :
  (row_flag (300 * ns_per_day + 5) lowell = "Blue" <->
   (300 * ns_per_day + 5 - 300 * ns_per_day < 211 * ns_per_day)%Z)
  /\ (row_flag (300 * ns_per_day + 5) lowell = "Orange" <->
      (211 * ns_per_day <= 300 * ns_per_day + 5 - 300 * ns_per_day
       < 271 * ns_per_day)%Z)
  /\ (row_flag (300 * ns_per_day + 5) lowell = "Red"
      \/ row_flag (300 * ns_per_day + 5) lowell = "Black" <->
      (271 * ns_per_day <= 300 * ns_per_day + 5 - 300 * ns_per_day)%Z).
Proof.
  apply (row_flag_day_boundaries (300 * ns_per_day + 5) lowell (300 * ns_per_day)).
  reflexivity.
Defined.

(** X4. A row only ages: at a later date its flag is at the same or a
    later stage (Blue, then Orange, then Red or Black), and a row that
    has reached the last stage keeps its flag. *)
Theorem row_flag_ages_forward (today today' : Z) (r : row) :
  (today <= today')%Z ->
  flag_stage (row_flag today r) <= flag_stage (row_flag today' r)
  /\ (flag_stage (row_flag today r) = 2 -> row_flag today' r = row_flag today r).
Proof.
  intros Hle. unfold row_flag.
  destruct (Date_Assigned_to_Rep r) as [d|]; [|split; [lia|reflexivity]].
  cbv zeta. pose proof (timedelta_days_mono today today' d Hle) as Hm.
  destruct (Z.leb_spec (timedelta_days today d) 210) as [A|A];
    destruct (Z.leb_spec (timedelta_days today' d) 210) as [A'|A']; try lia.
  - split; [reflexivity | discriminate].
  - split; [cbn; lia | discriminate].
  - destruct (Z.ltb_spec 210 (timedelta_days today d)) as [_|B]; [|lia].
    destruct (Z.ltb_spec 210 (timedelta_days today' d)) as [_|B']; [|lia].
    destruct (Z.leb_spec (timedelta_days today d) 270) as [C|C];
      destruct (Z.leb_spec (timedelta_days today' d) 270) as [C'|C'];
      cbn [andb]; try lia.
    + split; [reflexivity | discriminate].
    + split; [|discriminate].
      destruct ((270 <? timedelta_days today' d)%Z && deals_eq_0 (Deals r));
        cbn; lia.
    + destruct (Z.ltb_spec 270 (timedelta_days today d)) as [_|E]; [|lia].
      destruct (Z.ltb_spec 270 (timedelta_days today' d)) as [_|E']; [|lia].
      split; reflexivity.
Qed.

Lemma row_flag_ages_forward_witness :
  flag_stage (row_flag (400 * ns_per_day) lowell)
  <= flag_stage (row_flag (600 * ns_per_day) lowell)
  /\ (flag_stage (row_flag (400 * ns_per_day) lowell) = 2 ->
      row_flag (600 * ns_per_day) lowell = row_flag (400 * ns_per_day) lowell).
Proof.
  apply (row_flag_ages_forward (400 * ns_per_day) (600 * ns_per_day) lowell).
  discriminate.
Defined.

(** ** More on the distance *)

Section DistanceMore.

Local Open Scope R_scope.

End DistanceMore.

(** X6. [haversine] returns NaN exactly when the first latitude, the
    first longitude or the second latitude is NaN; a missing second
    longitude goes unnoticed. *)
Theorem haversine_NaN_iff (lat1 lon1 lat2 lon2 : float) :
  haversine lat1 lon1 lat2 lon2 = None <->
  lat1 = None \/ lon1 = None \/ lat2 = None.
Proof.
  split; [|apply haversine_NaN].
  destruct lat1 as [a|]; [|tauto]. destruct lon1 as [b|]; [|tauto].
  destruct lat2 as [c|]; [|tauto].
  rewrite (haversine_Some a b c lon2 0). discriminate.
Qed.

(** ** More on the proximity filter *)

Section ProximityMore.

Lemma filter_filter (p q : row -> bool) (data : DataFrame) :
  filter q (filter p data) = filter (fun r => (p r && q r)%bool) data.
Proof.
  induction data as [|r data IH]; simpl; [reflexivity|].
  destruct (p r); simpl; [|exact IH]. destruct (q r); now rewrite IH.
Qed.

Lemma filter_all (p : row -> bool) (data : DataFrame) :
  (forall r, In r data -> p r = true) -> filter p data = data.
Proof.
  induction data as [|r data IH]; intros H; simpl; [reflexivity|].
  rewrite (H r (or_introl eq_refl)). f_equal. apply IH.
  intros x Hx. apply H. now right.
Qed.

Lemma filter_none (p : row -> bool) (data : DataFrame) :
  (forall r, In r data -> p r = false) -> filter p data = [].
Proof.
  induction data as [|r data IH]; intros H; simpl; [reflexivity|].
  rewrite (H r (or_introl eq_refl)). apply IH.
  intros x Hx. apply H. now right.
Qed.

Lemma assigned_rows_filter (data : DataFrame) :
  assigned_rows data = filter (fun r => notna (Rep_Assigned r)) data.
Proof. apply boolean_index_map. Qed.

Lemma find_available_cities_available_in (data : DataFrame) :
  find_available_cities data = filter (available_in data) data.
Proof.
  rewrite find_available_cities_filter, filter_filter.
  apply filter_ext. intros r. unfold available_in.
  now rewrite assigned_rows_filter.
Qed.

(** A frame without assigned rows is returned as it is. *)
Lemma find_available_cities_unassigned_frame (data : DataFrame) :
  (forall r, In r data -> Rep_Assigned r = None) ->
  find_available_cities data = data.
Proof.
  intros H. rewrite find_available_cities_available_in.
  apply filter_all. intros r Hr. unfold available_in, isna.
  rewrite (H r Hr). cbn [notna negb andb].
  rewrite assigned_rows_filter, filter_none; [reflexivity|].
  intros a Ha. now rewrite (H a Ha).
Qed.

Lemma scan_assigned_map (g : row -> row) (u : row) (assigned : DataFrame) :
  (forall a, Latitude (g a) = Latitude a) ->
  scan_assigned u (map g assigned) = scan_assigned u assigned.
Proof.
  intros Hg. induction assigned as [|a assigned IH]; simpl; [reflexivity|].
  rewrite Hg, IH.
  replace (haversine (Latitude u) (Longitude u) (Latitude a) (Longitude (g a)))
    with (haversine (Latitude u) (Longitude u) (Latitude a) (Longitude a))
    by reflexivity.
  reflexivity.
Qed.

Lemma filter_map_rows (p : row -> bool) (g : row -> row) (data : DataFrame) :
  filter p (map g data) = map g (filter (fun r => p (g r)) data).
Proof.
  induction data as [|r data IH]; simpl; [reflexivity|].
  destruct (p (g r)); simpl; now rewrite IH.
Qed.

End ProximityMore.

(** X7. The result of the proximity filter is the input frame with rows
    taken out: the rows that remain are unchanged, in input order, each
    as often as in the input, and none has a representative. *)
Theorem find_available_cities_rows (data : DataFrame) :
  find_available_cities data = filter (available_in data) data
  /\ (forall u, In u (find_available_cities data) ->
                In u data /\ Rep_Assigned u = None)
  /\ List.length (find_available_cities data)
     <= count_rows (fun r => isna (Rep_Assigned r)) data.
Proof.
  split; [apply find_available_cities_available_in|]. split.
  - intros u Hu. apply find_available_cities_In in Hu. tauto.
  - rewrite find_available_cities_filter. unfold count_rows.
    apply filter_length_le.
Qed.

(** X8. When some row is available, filtering the result again changes
    nothing.  (When none is, the source returns a frame without columns,
    on which a further call fails; the statement leaves that case
    out.) *)
Theorem find_available_cities_idempotent (data : DataFrame) :
  find_available_cities data <> [] ->
  find_available_cities (find_available_cities data)
  = find_available_cities data.
Proof.
  intros _. apply find_available_cities_unassigned_frame.
  intros r Hr. apply find_available_cities_In in Hr. tauto.
Qed.

(** X9. Taking rows out of a frame never makes a remaining row
    unavailable: a row that is available in a frame is available in
    every frame made of rows of that frame, when it is one of them.
    (So an assigned row that an earlier filter has dropped no longer
    blocks its neighbours.) *)
Theorem find_available_cities_subframe (data sub : DataFrame) (u : row) :
  incl sub data ->
  In u sub ->
  In u (find_available_cities data) ->
  In u (find_available_cities sub).
Proof.
  intros Hincl Hu H. apply find_available_cities_In in H.
  destruct H as [_ [Hrep Hall]].
  apply find_available_cities_In. split; [exact Hu|]. split; [exact Hrep|].
  intros a Ha. apply Hall. now apply Hincl.
Qed.

(** X10. The longitudes of the assigned rows play no part: replacing
    them by any values whatever leaves the result unchanged. *)
Theorem find_available_cities_ignores_assigned_longitude
        (lon : row -> float) (data : DataFrame) :
  find_available_cities
    (map (fun r => if notna (Rep_Assigned r) then set_Longitude r (lon r) else r)
         data)
  = find_available_cities data.
Proof.
  set (g := fun r => if notna (Rep_Assigned r) then set_Longitude r (lon r) else r).
  assert (Grep : forall r, Rep_Assigned (g r) = Rep_Assigned r).
  { intros r. unfold g. destruct (notna (Rep_Assigned r)); reflexivity. }
  assert (Glat : forall r, Latitude (g r) = Latitude r).
  { intros r. unfold g. destruct (notna (Rep_Assigned r)); reflexivity. }
  assert (Gun : forall r, isna (Rep_Assigned r) = true -> g r = r).
  { intros r H. unfold g. unfold isna in H.
    destruct (notna (Rep_Assigned r)); [discriminate|reflexivity]. }
  assert (Gassigned : assigned_rows (map g data) = map g (assigned_rows data)).
  { rewrite !assigned_rows_filter, filter_map_rows.
    f_equal. apply filter_ext. intros r. now rewrite Grep. }
  rewrite !find_available_cities_available_in, filter_map_rows.
  assert (E : forall r, available_in (map g data) (g r) = available_in data r).
  { intros r. unfold available_in. rewrite Grep, Gassigned.
    destruct (isna (Rep_Assigned r)) eqn:Hr; [|reflexivity].
    rewrite (Gun r Hr), scan_assigned_map; [reflexivity | exact Glat]. }
  rewrite (filter_ext _ _ E).
  rewrite <- (map_id (filter (available_in data) data)) at 2.
  apply map_ext_in. intros r Hr. apply filter_In in Hr.
  destruct Hr as [_ Hr]. apply Gun. unfold available_in in Hr.
  apply andb_true_iff in Hr. tauto.
Qed.

(** ** More on the aggregator *)

Section AggregatorMore.

Lemma string_lt_trans (a b c : string) :
  string_lt a b -> string_lt b c -> string_lt a c.
Proof.
  unfold string_lt. intros H1 H2.
  apply OrderedTypeEx.String_as_OT.cmp_lt.
  apply OrderedTypeEx.String_as_OT.cmp_lt in H1.
  apply OrderedTypeEx.String_as_OT.cmp_lt in H2.
  eapply OrderedTypeEx.String_as_OT.lt_trans; eassumption.
Qed.

Lemma string_lt_irrefl (a : string) : ~ string_lt a a.
Proof.
  unfold string_lt. intros H.
  assert (E : String.compare a a = Eq)
    by now apply OrderedTypeEx.String_as_OT.cmp_eq.
  congruence.
Qed.

Lemma string_gt_lt (a b : string) : String.compare a b = Gt -> string_lt b a.
Proof.
  unfold string_lt. intros H. rewrite String.compare_antisym, H. reflexivity.
Qed.

Lemma insert_sorted_sorted (x : string) (l : list string) :
  StronglySorted string_lt l -> StronglySorted string_lt (insert_sorted x l).
Proof.
  induction 1 as [|y l Hs IH Hy]; simpl.
  - constructor; constructor.
  - destruct (String.compare x y) eqn:E.
    + now constructor.
    + constructor; [now constructor|].
      constructor; [exact E|].
      apply Forall_forall. intros z Hz.
      apply (string_lt_trans x y z E).
      rewrite Forall_forall in Hy. now apply Hy.
    + constructor; [exact IH|].
      apply Forall_forall. intros z Hz. apply In_insert_sorted in Hz.
      destruct Hz as [->|Hz]; [now apply string_gt_lt|].
      rewrite Forall_forall in Hy. now apply Hy.
Qed.

Lemma sort_uniq_sorted (l : list string) : StronglySorted string_lt (sort_uniq l).
Proof.
  unfold sort_uniq. induction l as [|x l IH]; simpl.
  - constructor.
  - now apply insert_sorted_sorted.
Qed.

Lemma sorted_NoDup (l : list string) : StronglySorted string_lt l -> NoDup l.
Proof.
  induction 1 as [|y l Hs IH Hy]; constructor; [|exact IH].
  intros Hin. apply (string_lt_irrefl y).
  rewrite Forall_forall in Hy. now apply Hy.
Qed.

(** Two strictly sorted lists with the same elements are equal. *)
Lemma sorted_same_elements (l1 l2 : list string) :
  StronglySorted string_lt l1 -> StronglySorted string_lt l2 ->
  (forall x, In x l1 <-> In x l2) -> l1 = l2.
Proof.
  intros H1. revert l2.
  induction H1 as [|a1 t1 Hs1 IH Ha1]; intros l2 H2 Hsame.
  - destruct l2 as [|a2 t2]; [reflexivity|].
    exfalso. apply (proj2 (Hsame a2)). now left.
  - destruct H2 as [|a2 t2 Hs2 Ha2].
    + exfalso. apply (proj1 (Hsame a1)). now left.
    + rewrite Forall_forall in Ha1, Ha2.
      assert (E : a1 = a2).
      { destruct (proj1 (Hsame a1) (or_introl eq_refl)) as [E|I1]; [now symmetry|].
        destruct (proj2 (Hsame a2) (or_introl eq_refl)) as [E|I2]; [exact E|].
        exfalso. apply (string_lt_irrefl a1).
        apply (string_lt_trans a1 a2 a1); auto. }
      subst a2. f_equal. apply IH; [exact Hs2|].
      intros x. split; intros Hx.
      * destruct (proj1 (Hsame x) (or_intror Hx)) as [E|I]; [|exact I].
        subst x. exfalso. apply (string_lt_irrefl a1). auto.
      * destruct (proj2 (Hsame x) (or_intror Hx)) as [E|I]; [|exact I].
        subst x. exfalso. apply (string_lt_irrefl a1). auto.
Qed.

Lemma summary_index (data : DataFrame) :
  map fst (summarize_by_rep data)
  = sort_uniq (map (fun e => fst (fst e)) (groupby_value_counts data)).
Proof.
  rewrite summarize_by_rep_rows, map_map. cbn [fst]. apply map_id.
Qed.

Lemma count_rows_ext_in (p q : row -> bool) (data : DataFrame) :
  (forall r, In r data -> p r = q r) -> count_rows p data = count_rows q data.
Proof.
  intros H. unfold count_rows. f_equal. now apply filter_ext_in.
Qed.

Lemma count_rows_permutation (p : row -> bool) (d1 d2 : DataFrame) :
  Permutation d1 d2 -> count_rows p d1 = count_rows p d2.
Proof.
  induction 1 as [|r d1 d2 _ IH|r1 r2 d|d1 d2 d3 _ IH1 _ IH2].
  - reflexivity.
  - rewrite !count_rows_cons. now rewrite IH.
  - rewrite !count_rows_cons. lia.
  - congruence.
Qed.

(** The four counts of a representative, as one count. *)
Lemma four_counts (rep : string) (data : DataFrame) :
  count_rows (rep_flag_is rep "Blue") data
  + count_rows (rep_flag_is rep "Orange") data
  + count_rows (rep_flag_is rep "Red") data
  + count_rows (rep_flag_is rep "Black") data
  = count_rows (fun r => (rep_is rep r && summary_flag r)%bool) data.
Proof.
  induction data as [|r data IH]; [reflexivity|].
  rewrite !count_rows_cons, <- IH. unfold rep_flag_is, summary_flag.
  fold (rep_is rep r). destruct (rep_is rep r); cbn [andb]; [|lia].
  destruct (Flag r) as [f|]; cbn [cell_eq orb]; [|lia].
  destruct (String.eqb_spec f "Blue") as [->|]; [cbn; lia|].
  destruct (String.eqb_spec f "Orange") as [->|]; [cbn; lia|].
  destruct (String.eqb_spec f "Red") as [->|]; [cbn; lia|].
  destruct (String.eqb_spec f "Black") as [->|]; cbn; lia.
Qed.

Lemma sum_over_keys (q : row -> bool) (keys : list string) (data : DataFrame) :
  NoDup keys ->
  list_sum (map (fun k => count_rows (fun r => (rep_is k r && q r)%bool) data) keys)
  = count_rows (fun r => (rep_among keys r && q r)%bool) data.
Proof.
  induction 1 as [|k keys Hk _ IH]; cbn [map list_sum].
  - unfold count_rows. rewrite filter_none; [reflexivity|].
    intros r _. unfold rep_among. now destruct (Rep_Assigned r).
  - change (list_sum (?a :: ?l)) with (a + list_sum l). rewrite IH. clear IH.
    induction data as [|r data IHd]; [reflexivity|].
    rewrite !count_rows_cons.
    assert (E : (if (rep_is k r && q r)%bool then 1 else 0)
                + (if (rep_among keys r && q r)%bool then 1 else 0)
                = if (rep_among (k :: keys) r && q r)%bool then 1 else 0).
    { unfold rep_is, rep_among. destruct (Rep_Assigned r) as [rep|];
        cbn [cell_eq in_list existsb andb]; [|reflexivity].
      destruct (String.eqb_spec rep k) as [->|Hne]; cbn [orb andb].
      - assert (Hn : existsb (String.eqb k) keys = false).
        { destruct (existsb (String.eqb k) keys) eqn:Ex; [|reflexivity].
          apply existsb_exists in Ex. destruct Ex as [x [Hx Ex]].
          apply String.eqb_eq in Ex. subst x. contradiction. }
        fold (in_list k keys). unfold in_list. rewrite Hn. cbn [andb].
        destruct (q r); reflexivity.
      - reflexivity. }
    lia.
Qed.

End AggregatorMore.

(** X11. The rows of the summary come in strictly increasing order of
    the representative's name (byte-wise comparison), so that no
    representative has two rows. *)
Theorem summarize_by_rep_sorted (data : DataFrame) :
  StronglySorted string_lt (map fst (summarize_by_rep data))
  /\ NoDup (map fst (summarize_by_rep data)).
Proof.
  rewrite summary_index. split.
  - apply sort_uniq_sorted.
  - apply sorted_NoDup, sort_uniq_sorted.
Qed.

(** X12. On a frame whose rows all carry a flag, the summary is empty
    exactly when no row has a representative; the empty frame and a
    frame of unassigned rows give an empty summary. *)
Theorem summarize_by_rep_empty_iff (data : DataFrame) :
  (forall r, In r data -> Flag r <> None) ->
  (summarize_by_rep data = [] <->
   forall r, In r data -> Rep_Assigned r = None).
Proof.
  intros Hflag. split.
  - intros H r Hr.
    destruct (Rep_Assigned r) as [rep|] eqn:Hrep; [|reflexivity].
    destruct (Flag r) as [f|] eqn:Hf; [|now elim (Hflag r Hr)].
    exfalso.
    assert (Hin : In rep (map fst (summarize_by_rep data))).
    { rewrite summary_index. apply summary_index_In. exists r, f. auto. }
    rewrite H in Hin. exact Hin.
  - intros H.
    destruct (summarize_by_rep data) as [|[rep cells] t] eqn:E; [reflexivity|].
    exfalso.
    assert (Hin : In rep (map fst (summarize_by_rep data)))
      by (rewrite E; now left).
    rewrite summary_index in Hin. apply summary_index_In in Hin.
    destruct Hin as [r [f [Hr [Hrep Hf]]]].
    rewrite (H r Hr) in Hrep. discriminate.
Qed.

Lemma summarize_by_rep_empty_iff_witness :
  summarize_by_rep [set_Flag salem "Purple"; set_Flag boston "Purple"] = [] <->
  forall r, In r [set_Flag salem "Purple"; set_Flag boston "Purple"] ->
            Rep_Assigned r = None.
Proof.
  apply summarize_by_rep_empty_iff.
  intros r [<-|[<-|[]]]; discriminate.
Defined.

(** X13. On a frame whose rows all carry a flag, the Totals of the
    summary add up to the number of rows that have a representative and
    one of the four flags Blue, Orange, Red, Black; rows with any other
    flag are not counted. *)
Theorem summarize_by_rep_grand_total (data : DataFrame) :
  (forall r, In r data -> Flag r <> None) ->
  list_sum (map row_Total (summarize_by_rep data))
  = count_rows (fun r => (notna (Rep_Assigned r) && summary_flag r)%bool) data.
Proof.
  intros _. rewrite summarize_by_rep_rows, map_map.
  set (keys := sort_uniq (map (fun e => fst (fst e)) (groupby_value_counts data))).
  rewrite (map_ext _ (fun k => count_rows
                                 (fun r => (rep_is k r && summary_flag r)%bool) data)).
  2:{ intros k. unfold row_Total. cbn. apply four_counts. }
  rewrite sum_over_keys; [|apply sorted_NoDup, sort_uniq_sorted].
  apply count_rows_ext_in. intros r Hr.
  unfold rep_among. destruct (Rep_Assigned r) as [rep|] eqn:Hrep; [|reflexivity].
  cbn [notna]. destruct (summary_flag r) eqn:Hs; [|now rewrite !andb_false_r].
  rewrite !andb_true_r. unfold in_list.
  apply existsb_exists. exists rep. split; [|apply String.eqb_refl].
  apply summary_index_In. unfold summary_flag in Hs.
  destruct (Flag r) as [f|] eqn:Hf; [|discriminate]. exists r, f. auto.
Qed.

Lemma summarize_by_rep_grand_total_witness :
  list_sum (map row_Total
              (summarize_by_rep [set_Flag lowell "Red"; set_Flag antipode "Purple";
                                 set_Flag salem "Purple"]))
  = count_rows (fun r => (notna (Rep_Assigned r) && summary_flag r)%bool)
               [set_Flag lowell "Red"; set_Flag antipode "Purple";
                set_Flag salem "Purple"].
Proof.
  apply summarize_by_rep_grand_total.
  intros r [<-|[<-|[<-|[]]]]; discriminate.
Defined.

(** X14. The summary does not depend on the order of the rows of the
    frame. *)
Theorem summarize_by_rep_permutation (d1 d2 : DataFrame) :
  Permutation d1 d2 -> summarize_by_rep d1 = summarize_by_rep d2.
Proof.
  intros HP. rewrite !summarize_by_rep_rows.
  assert (E : sort_uniq (map (fun e => fst (fst e)) (groupby_value_counts d1))
              = sort_uniq (map (fun e => fst (fst e)) (groupby_value_counts d2))).
  { apply sorted_same_elements; try apply sort_uniq_sorted.
    intros rep. rewrite !summary_index_In.
    split; intros [r [f [Hr H]]]; exists r, f; split; auto.
    - now apply (Permutation_in r HP).
    - now apply (Permutation_in r (Permutation_sym HP)). }
  rewrite E. apply map_ext. intros rep.
  now rewrite !(count_rows_permutation _ d1 d2 HP).
Qed.

Lemma summarize_by_rep_permutation_witness :
  summarize_by_rep [set_Flag lowell "Red"; set_Flag antipode "Black"]
  = summarize_by_rep [set_Flag antipode "Black"; set_Flag lowell "Red"].
Proof.
  apply summarize_by_rep_permutation. apply perm_swap.
Defined.

(** ** More on the query filter *)

Section QueryFilterMore.

Variables (states : list string) (search_query : string)
          (selected_rep selected_flag : option string) (min_population : Z).

Lemma filter_data_row_kept (data out : DataFrame) :
  filter_data data states search_query selected_rep selected_flag min_population
  = Returns out ->
  out = filter (row_kept states search_query selected_rep selected_flag
                         min_population) data
  /\ (truthy search_query && negb (plain_pattern search_query))%bool = false.
Proof.
  rewrite filter_data_filters.
  destruct (truthy search_query && negb (plain_pattern search_query))%bool.
  { unfold search_failure. destruct (does_not_compile search_query); discriminate. }
  intros H. injection H as <-. split; [|reflexivity].
  rewrite !filter_filter. apply filter_ext. intros r. unfold row_kept.
  now rewrite !andb_assoc.
Qed.

Lemma filter_data_of_row_kept (data : DataFrame) :
  (truthy search_query && negb (plain_pattern search_query))%bool = false ->
  filter_data data states search_query selected_rep selected_flag min_population
  = Returns (filter (row_kept states search_query selected_rep selected_flag
                              min_population) data).
Proof.
  intros H. rewrite filter_data_filters, H. f_equal.
  rewrite !filter_filter. apply filter_ext. intros r. unfold row_kept.
  now rewrite !andb_assoc.
Qed.

End QueryFilterMore.

Section QueryFilterFacts.

Lemma lower_empty (q : string) : lower q = "" -> q = "".
Proof. destruct q; [reflexivity | discriminate]. Qed.

Lemma truthy_lower (q q' : string) : lower q = lower q' -> truthy q = truthy q'.
Proof.
  intros H. unfold truthy.
  destruct (String.eqb_spec q "") as [->|Hq];
    destruct (String.eqb_spec q' "") as [->|Hq']; try reflexivity; exfalso.
  - apply Hq'. apply lower_empty. now rewrite <- H.
  - apply Hq. apply lower_empty. now rewrite H.
Qed.

Lemma search_ok_lower (q q' : string) (r : row) :
  lower q = lower q' -> search_ok q r = search_ok q' r.
Proof.
  intros H. unfold search_ok, cell_contains.
  rewrite (truthy_lower q q' H), H. reflexivity.
Qed.

Lemma isin_incl (c : option string) (s1 s2 : list string) :
  incl s1 s2 -> isin c s1 = true -> isin c s2 = true.
Proof.
  intros Hi. destruct c as [s|]; simpl; [|discriminate].
  intros H. apply existsb_exists in H. destruct H as [x [Hx E]].
  apply existsb_exists. exists x. split; [now apply Hi | exact E].
Qed.

Lemma cell_ge_mono (c : option Z) (m m' : Z) :
  (m <= m')%Z -> cell_ge c m' = true -> cell_ge c m = true.
Proof.
  intros Hle. destruct c as [n|]; simpl; [|discriminate].
  rewrite !Z.leb_le. lia.
Qed.

Lemma count_rows_filter (p q : row -> bool) (data : DataFrame) :
  count_rows p (filter q data) = count_rows (fun r => (q r && p r)%bool) data.
Proof. unfold count_rows. now rewrite filter_filter. Qed.

Lemma count_rows_le (p q : row -> bool) (data : DataFrame) :
  (forall r, In r data -> p r = true -> q r = true) ->
  count_rows p data <= count_rows q data.
Proof.
  induction data as [|r data IH]; intros H; [reflexivity|].
  rewrite !count_rows_cons.
  assert (IH' : count_rows p data <= count_rows q data).
  { apply IH. intros x Hx. apply H. now right. }
  specialize (H r (or_introl eq_refl)).
  destruct (p r); [rewrite H by reflexivity|destruct (q r)]; lia.
Qed.

End QueryFilterFacts.

(** X15. Filtering the result once more with the same arguments changes
    nothing. *)
Theorem filter_data_idempotent (data : DataFrame) (states : list string)
        (search_query : string) (selected_rep selected_flag : option string)
        (min_population : Z) (out : DataFrame) :
  filter_data data states search_query selected_rep selected_flag min_population
  = Returns out ->
  filter_data out states search_query selected_rep selected_flag min_population
  = Returns out.
Proof.
  intros H. apply filter_data_row_kept in H. destruct H as [-> Hq].
  rewrite (filter_data_of_row_kept _ _ _ _ _ _ Hq). apply f_equal.
  apply filter_all. intros r Hr. apply filter_In in Hr. tauto.
Qed.

Lemma filter_data_idempotent_witness :
  filter_data [salem] ["MA"] "sal" None None 0 = Returns [salem].
Proof.
  apply (filter_data_idempotent [salem; boston; lowell] ["MA"] "sal" None None 0).
  reflexivity.
Defined.

(** X16. The search does not see the case of the search text: two plain
    search texts that differ in the case of their letters only select
    the same rows. *)
Theorem filter_data_search_case (data : DataFrame) (states : list string)
        (q q' : string) (selected_rep selected_flag : option string)
        (min_population : Z) :
  plain_pattern q = true -> plain_pattern q' = true ->
  lower q = lower q' ->
  filter_data data states q selected_rep selected_flag min_population
  = filter_data data states q' selected_rep selected_flag min_population.
Proof.
  intros Hp Hp' Hl.
  rewrite !filter_data_of_row_kept by (rewrite ?Hp, ?Hp'; apply andb_false_r).
  f_equal. apply filter_ext. intros r. unfold row_kept.
  now rewrite (search_ok_lower q q' r Hl).
Qed.

Lemma filter_data_search_case_witness :
  filter_data [salem; boston; lowell] ["MA"] "LoWeLL" None None 0
  = filter_data [salem; boston; lowell] ["MA"] "lowell" None None 0.
Proof.
  apply filter_data_search_case; reflexivity.
Defined.

(** X17. A higher population floor or a smaller selection of states
    never adds rows: every row kept under the stricter arguments is
    kept under the laxer ones. *)
Theorem filter_data_monotone (data : DataFrame) (states states' : list string)
        (search_query : string) (selected_rep selected_flag : option string)
        (m m' : Z) (out out' : DataFrame) :
  incl states states' -> (m <= m')%Z ->
  filter_data data states search_query selected_rep selected_flag m' = Returns out ->
  filter_data data states' search_query selected_rep selected_flag m = Returns out' ->
  incl out out'.
Proof.
  intros Hs Hm H H' r Hr.
  apply (filter_data_In _ _ _ _ _ _ _ r H) in Hr.
  apply (filter_data_In _ _ _ _ _ _ _ r H').
  destruct Hr as [Hin [Hb [Hq [Hrep Hf]]]]. repeat split; auto.
  unfold base_ok in *. apply andb_true_iff in Hb. destruct Hb as [B1 B2].
  apply andb_true_iff. split.
  - now apply (isin_incl _ states states').
  - now apply (cell_ge_mono _ m m').
Qed.

Lemma filter_data_monotone_witness :
  incl [lowell] [salem; lowell].
Proof.
  apply (filter_data_monotone [salem; boston; lowell] ["MA"] ["MA"; "EQ"]
           "" None None 0 50000 [lowell] [salem; lowell]).
  - intros x [<-|[]]. left. reflexivity.
  - discriminate.
  - reflexivity.
  - reflexivity.
Defined.

(** X18. Without a selected flag, filtering and classifying commute:
    the query filter applied to the classified frame returns the
    classified rows of the query filter applied to the loaded frame. *)
Theorem filter_data_assign_flags (today : Z) (data : DataFrame)
        (states : list string) (search_query : string)
        (selected_rep : option string) (min_population : Z) :
  filter_data (assign_flags today data) states search_query selected_rep None
              min_population
  = outcome_map (assign_flags today)
      (filter_data data states search_query selected_rep None min_population).
Proof.
  rewrite !filter_data_filters.
  destruct (truthy search_query && negb (plain_pattern search_query))%bool.
  { unfold search_failure. destruct (does_not_compile search_query); reflexivity. }
  unfold outcome_map. cbn [outcome_bind]. f_equal.
  rewrite !filter_filter, !assign_flags_map, filter_map_rows. reflexivity.
Qed.

(** X19. Selecting a cell of the summary: with a representative and one
    of the four flags selected and no search text, the query filter
    returns at most as many rows as the cell of the summary of the
    selected states shows, and exactly as many when no row falls under
    the population floor. *)
Theorem selection_within_summary_cell (data : DataFrame) (states : list string)
        (rep f : string) (min_population : Z) (out : DataFrame)
        (cells : list (string * nat)) :
  truthy rep = true ->
  In f ["Blue"; "Orange"; "Red"; "Black"] ->
  filter_data data states "" (Some rep) (Some f) min_population = Returns out ->
  In (rep, cells)
     (summarize_by_rep
        (boolean_index data (map (fun r => isin (State r) states) data))) ->
  List.length out <= dict_get cells f 0
  /\ ((forall r, In r data -> cell_ge (Population r) min_population = true) ->
      List.length out = dict_get cells f 0).
Proof.
  intros Hrep Hf H Hin.
  assert (Tf : truthy f = true).
  { destruct Hf as [<-|[<-|[<-|[<-|[]]]]]; reflexivity. }
  rewrite boolean_index_map, summarize_by_rep_rows in Hin.
  apply in_map_iff in Hin. destruct Hin as [rep' [E _]].
  inversion E; subst rep' cells; clear E.
  set (sel := filter (fun r => isin (State r) states) data).
  assert (Ecell : dict_get
                    [("Blue", count_rows (rep_flag_is rep "Blue") sel);
                     ("Orange", count_rows (rep_flag_is rep "Orange") sel);
                     ("Red", count_rows (rep_flag_is rep "Red") sel);
                     ("Black", count_rows (rep_flag_is rep "Black") sel);
                     ("Total", count_rows (rep_flag_is rep "Blue") sel
                               + count_rows (rep_flag_is rep "Orange") sel
                               + count_rows (rep_flag_is rep "Red") sel
                               + count_rows (rep_flag_is rep "Black") sel)] f 0
                  = count_rows (rep_flag_is rep f) sel).
  { destruct Hf as [<-|[<-|[<-|[<-|[]]]]]; reflexivity. }
  rewrite Ecell. unfold sel. rewrite count_rows_filter.
  apply filter_data_row_kept in H. destruct H as [-> _].
  change (List.length (filter ?p data)) with (count_rows p data).
  assert (K : forall r,
             row_kept states "" (Some rep) (Some f) min_population r
             = (isin (State r) states && rep_flag_is rep f r
                && cell_ge (Population r) min_population)%bool).
  { intros r. unfold row_kept, base_ok, search_ok, selection_ok, rep_flag_is.
    rewrite Hrep, Tf. cbn [truthy String.eqb negb].
    destruct (isin (State r) states), (cell_ge (Population r) min_population),
      (cell_eq (Rep_Assigned r) rep), (cell_eq (Flag r) f); reflexivity. }
  split.
  - apply count_rows_le. intros r _. rewrite K.
    intros Hk. apply andb_true_iff in Hk. tauto.
  - intros Hpop. apply count_rows_ext_in. intros r Hr.
    rewrite K, (Hpop r Hr). apply andb_true_r.
Qed.

Lemma selection_within_summary_cell_witness :
  List.length [set_Flag lowell "Red"] <= 1
  /\ ((forall r, In r [set_Flag lowell "Red"; set_Flag salem "Purple"] ->
                 cell_ge (Population r) 0 = true) ->
      List.length [set_Flag lowell "Red"] = 1).
Proof.
  apply (selection_within_summary_cell
           [set_Flag lowell "Red"; set_Flag salem "Purple"] ["MA"] "Ann" "Red" 0
           [set_Flag lowell "Red"]
           [("Blue", 0); ("Orange", 0); ("Red", 1); ("Black", 0); ("Total", 1)]).
  - reflexivity.
  - right; right; left; reflexivity.
  - reflexivity.
  - left. reflexivity.
Defined.

(** ** The map *)

Section MapFacts.

Lemma dropna_coords_filter (data : DataFrame) :
  dropna_coords data = filter has_coords data.
Proof. unfold dropna_coords. apply boolean_index_map. Qed.

Lemma add_city_markers_map (rows : DataFrame) (filters : list string)
      (markers : list Marker) :
  add_city_markers rows filters markers
  = markers ++ map city_marker
      (filter (fun r => in_list (row_get_Flag r "Purple") filters) rows).
Proof.
  revert markers. induction rows as [|r rows IH]; intros markers; simpl.
  - now rewrite app_nil_r.
  - destruct (in_list (row_get_Flag r "Purple") filters); rewrite IH;
      [|reflexivity].
    rewrite <- app_assoc. reflexivity.
Qed.

Lemma add_available_markers_map (rows : DataFrame) (markers : list Marker) :
  add_available_markers rows markers = markers ++ map available_marker rows.
Proof.
  revert markers. induction rows as [|r rows IH]; intros markers; simpl.
  - now rewrite app_nil_r.
  - rewrite IH, <- app_assoc. reflexivity.
Qed.

Lemma create_map_children (data available_cities : DataFrame) (filters : list string) :
  children (create_map data available_cities filters)
  = map city_marker
      (filter (fun r => in_list (row_get_Flag r "Purple") filters)
              (filter has_coords data))
    ++ (if in_list "Purple" filters then map available_marker available_cities
        else []).
Proof.
  unfold create_map. cbv zeta. cbn [children map_location zoom_start].
  rewrite dropna_coords_filter, add_city_markers_map. cbn [app].
  destruct (in_list "Purple" filters); cbn [children].
  - now rewrite add_available_markers_map.
  - now rewrite app_nil_r.
Qed.

Lemma in_list_In (x : string) (l : list string) : in_list x l = true <-> In x l.
Proof.
  unfold in_list. rewrite existsb_exists. split.
  - intros [y [Hy E]]. apply String.eqb_eq in E. now subst.
  - intros H. exists x. split; [exact H | apply String.eqb_refl].
Qed.

Lemma flag_filters_five (b1 b2 b3 b4 b5 : bool) :
  incl (flag_filters b1 b2 b3 b4 b5) ["Blue"; "Orange"; "Red"; "Black"; "Purple"].
Proof.
  destruct b1, b2, b3, b4, b5; intros x Hx; simpl in *; tauto.
Qed.

End MapFacts.

(** X20. The markers of the map, on a classified frame and when every
    location handed to folium is a pair of numbers: a row has a city
    marker exactly when it is in the frame, has both coordinates and its
    flag is among the filters; a row has an available-city marker
    exactly when Purple is among the filters and the row is among the
    available cities; there is no other marker. *)
Theorem create_map_markers (data available_cities : DataFrame)
        (filters : list string) :
  (forall r, In r data -> Flag r <> None) ->
  locations_defined data available_cities filters ->
  (forall r, In (city_marker r) (children (create_map data available_cities filters))
             <-> In r data /\ has_coords r = true
                 /\ exists f, Flag r = Some f /\ In f filters)
  /\ (forall r, In (available_marker r)
                   (children (create_map data available_cities filters))
                <-> In "Purple" filters /\ In r available_cities)
  /\ (forall m, In m (children (create_map data available_cities filters)) ->
                (exists r, m = city_marker r) \/ (exists r, m = available_marker r)).
Proof.
  intros Hflag _. rewrite create_map_children. split; [|split].
  - intros r. rewrite in_app_iff, in_map_iff. split.
    + intros [[r' [E Hr']]|H].
      * assert (r' = r) by (unfold city_marker in E; congruence). subst r'.
        apply filter_In in Hr'. destruct Hr' as [Hr' Hf].
        apply filter_In in Hr'. destruct Hr' as [Hr Hc].
        split; [exact Hr|]. split; [exact Hc|].
        apply in_list_In in Hf. unfold row_get_Flag in Hf.
        destruct (Flag r) as [f|] eqn:Ef; [exists f; auto|].
        exfalso. now apply (Hflag r Hr).
      * exfalso. destruct (in_list "Purple" filters); [|destruct H].
        apply in_map_iff in H. destruct H as [r' [E _]]. discriminate E.
    + intros [Hr [Hc [f [Ef Hf]]]]. left. exists r. split; [reflexivity|].
      apply filter_In. split; [apply filter_In; auto|].
      apply in_list_In. unfold row_get_Flag. now rewrite Ef.
  - intros r. rewrite in_app_iff, in_map_iff. split.
    + intros [[r' [E _]]|H]; [discriminate E|].
      destruct (in_list "Purple" filters) eqn:Ep; [|destruct H].
      apply in_list_In in Ep. split; [exact Ep|].
      apply in_map_iff in H. destruct H as [r' [E Hr']].
      assert (r' = r) by (unfold available_marker in E; congruence).
      now subst r'.
    + intros [Hp Hr]. right. apply in_list_In in Hp. rewrite Hp.
      apply in_map_iff. exists r. auto.
  - intros m Hm. apply in_app_iff in Hm. destruct Hm as [Hm|Hm].
    + apply in_map_iff in Hm. destruct Hm as [r [<- _]]. left. now exists r.
    + destruct (in_list "Purple" filters); [|destruct Hm].
      apply in_map_iff in Hm. destruct Hm as [r [<- _]]. right. now exists r.
Qed.

(** X21. With the filters of the five check boxes and a classified
    frame, every marker has the colour of a ticked flag, the flag's name
    in lower case: the fallback colour gray is never used, and a city
    marker carries the colour of its row's flag. *)
Theorem create_map_colors (data available_cities : DataFrame)
        (show_blue show_orange show_red show_black show_purple : bool)
        (m : Marker) :
  (forall r, In r data -> Flag r <> None) ->
  In m (children
          (create_map data available_cities
             (flag_filters show_blue show_orange show_red show_black show_purple))) ->
  (exists f, In f (flag_filters show_blue show_orange show_red show_black show_purple)
             /\ icon_color m = lower f)
  /\ (forall r, marker_popup m = city_popup r ->
                Flag r = Some (row_get_Flag r "Purple")
                /\ icon_color m = lower (row_get_Flag r "Purple")).
Proof.
  intros Hflag Hm. rewrite create_map_children in Hm.
  set (filters := flag_filters show_blue show_orange show_red show_black show_purple)
    in *.
  pose proof (flag_filters_five show_blue show_orange show_red show_black show_purple)
    as H5. fold filters in H5.
  apply in_app_iff in Hm. destruct Hm as [Hm|Hm].
  - apply in_map_iff in Hm. destruct Hm as [r [<- Hr]].
    apply filter_In in Hr. destruct Hr as [Hr Hf].
    apply filter_In in Hr. destruct Hr as [Hr _].
    apply in_list_In in Hf.
    assert (Hc : icon_color (city_marker r) = lower (row_get_Flag r "Purple")).
    { specialize (H5 _ Hf). cbn [icon_color city_marker].
      destruct H5 as [<-|[<-|[<-|[<-|[<-|[]]]]]]; reflexivity. }
    split.
    + exists (row_get_Flag r "Purple"). auto.
    + intros r' E. cbn [marker_popup city_marker] in E.
      injection E as <-. split; [|exact Hc].
      unfold row_get_Flag. destruct (Flag r) eqn:Ef; [reflexivity|].
      exfalso. now apply (Hflag r Hr).
  - destruct (in_list "Purple" filters) eqn:Ep; [|destruct Hm].
    apply in_list_In in Ep.
    apply in_map_iff in Hm. destruct Hm as [r [<- _]]. split.
    + exists "Purple". split; [exact Ep | reflexivity].
    + intros r' E. discriminate E.
Qed.

(** X23. As [main] calls it, with the available cities computed from the
    frame that is drawn: on a classified frame whose rows all have both
    coordinates and with Purple among the filters, an available city
    whose own flag is among the filters is marked twice at the same
    place, once as a city in the colour of its flag and once as an
    available city in purple. *)
Theorem create_map_marks_available_twice (filtered_data : DataFrame)
        (filters : list string) (u : row) (f : string) :
  (forall r, In r filtered_data -> has_coords r = true) ->
  In "Purple" filters ->
  In u (find_available_cities filtered_data) ->
  Flag u = Some f -> In f filters ->
  let m := create_map filtered_data (find_available_cities filtered_data) filters in
  In (city_marker u) (children m)
  /\ In (available_marker u) (children m)
  /\ city_marker u <> available_marker u
  /\ location (city_marker u) = location (available_marker u).
Proof.
  intros Hc Hp Hu Hf Hin m. unfold m. rewrite create_map_children.
  apply find_available_cities_In in Hu. destruct Hu as [Hu0 Hu].
  assert (Hav : In u (find_available_cities filtered_data))
    by (apply find_available_cities_In; auto).
  split; [|split; [|split]].
  - apply in_app_iff. left. apply in_map_iff. exists u. split; [reflexivity|].
    apply filter_In. split; [apply filter_In; auto|].
    apply in_list_In. unfold row_get_Flag. now rewrite Hf.
  - apply in_app_iff. right. apply in_list_In in Hp. rewrite Hp.
    apply in_map_iff. exists u. auto.
  - discriminate.
  - reflexivity.
Qed.

Lemma create_map_markers_witness :
  (forall r, In (city_marker r)
                (children (create_map [set_Flag origin "Purple"; set_Flag antipode "Black"]
                                      [] ["Black"]))
             <-> In r [set_Flag origin "Purple"; set_Flag antipode "Black"]
                 /\ has_coords r = true
                 /\ exists f, Flag r = Some f /\ In f ["Black"])
  /\ (forall r, In (available_marker r)
                   (children (create_map [set_Flag origin "Purple"; set_Flag antipode "Black"]
                                         [] ["Black"]))
                <-> In "Purple" ["Black"] /\ In r [])
  /\ (forall m, In m (children (create_map [set_Flag origin "Purple"; set_Flag antipode "Black"]
                                           [] ["Black"])) ->
                (exists r, m = city_marker r) \/ (exists r, m = available_marker r)).
Proof.
  apply create_map_markers.
  - intros r [<-|[<-|[]]]; discriminate.
  - split.
    + exists (set_Flag origin "Purple"). split; [now left | reflexivity].
    + discriminate.
Defined.

Lemma create_map_colors_witness :
  (exists f, In f (flag_filters true true true true true)
             /\ icon_color (city_marker (set_Flag antipode "Black")) = lower f)
  /\ (forall r, marker_popup (city_marker (set_Flag antipode "Black")) = city_popup r ->
                Flag r = Some (row_get_Flag r "Purple")
                /\ icon_color (city_marker (set_Flag antipode "Black"))
                   = lower (row_get_Flag r "Purple")).
Proof.
  apply (create_map_colors [set_Flag antipode "Black"] [] true true true true true).
  - intros r [<-|[]]. discriminate.
  - left. reflexivity.
Defined.

Lemma create_map_marks_available_twice_witness :
  let m := create_map [set_Flag origin "Purple"]
                      (find_available_cities [set_Flag origin "Purple"]) ["Purple"] in
  In (city_marker (set_Flag origin "Purple")) (children m)
  /\ In (available_marker (set_Flag origin "Purple")) (children m)
  /\ city_marker (set_Flag origin "Purple") <> available_marker (set_Flag origin "Purple")
  /\ location (city_marker (set_Flag origin "Purple"))
     = location (available_marker (set_Flag origin "Purple")).
Proof.
  apply (create_map_marks_available_twice
           [set_Flag origin "Purple"] ["Purple"] (set_Flag origin "Purple") "Purple").
  - intros r [<-|[]]. reflexivity.
  - left. reflexivity.
  - left. reflexivity.
  - reflexivity.
  - left. reflexivity.
Defined.

(** ** The application *)

Section SessionFacts.

Lemma lookup_dict_set_same {V : Type} (d : list (string * V)) (k : string) (v : V) :
  lookup string_dec k (dict_set d k v) = Some v.
Proof.
  induction d as [|[k' w] d IH]; simpl.
  - destruct (string_dec k k); [reflexivity|congruence].
  - destruct (string_dec k k') as [E|NE]; simpl.
    + destruct (string_dec k k'); [reflexivity|congruence].
    + destruct (string_dec k k'); [congruence|exact IH].
Qed.

Lemma lookup_dict_set_other {V : Type} (d : list (string * V)) (k k' : string) (v : V) :
  k <> k' -> lookup string_dec k' (dict_set d k v) = lookup string_dec k' d.
Proof.
  intros Hne. induction d as [|[k0 w] d IH]; simpl.
  - destruct (string_dec k' k); [congruence|reflexivity].
  - destruct (string_dec k k0) as [E|NE]; simpl.
    + subst k0. destruct (string_dec k' k); [congruence|reflexivity].
    + destruct (string_dec k' k0); [reflexivity|exact IH].
Qed.

Lemma session_get_set_same (s : session_state) (k : string) (v : option string) :
  session_get (dict_set s k v) k = v.
Proof. unfold session_get, dict_get. now rewrite lookup_dict_set_same. Qed.

Lemma session_get_set_other (s : session_state) (k k' : string) (v : option string) :
  k <> k' -> session_get (dict_set s k v) k' = session_get s k'.
Proof.
  intros H. unfold session_get, dict_get. now rewrite lookup_dict_set_other.
Qed.

Lemma selection_set (s : session_state) (a b : option string) :
  selection (dict_set (dict_set s "selected_rep" a) "selected_flag" b) = (a, b).
Proof.
  unfold selection.
  rewrite session_get_set_other by discriminate.
  now rewrite !session_get_set_same.
Qed.

Lemma cell_eq_Some (c : option string) (v : string) :
  cell_eq c v = true <-> c = Some v.
Proof.
  destruct c as [s|]; simpl.
  - rewrite String.eqb_eq. split; congruence.
  - split; discriminate.
Qed.

Lemma on_cell_click_selected (s : session_state) (rep flag : string) :
  selection s = (Some rep, Some flag) ->
  selection (on_cell_click s rep flag) = (None, None).
Proof.
  unfold selection at 1. intros H. injection H as H1 H2.
  unfold on_cell_click. rewrite H1, H2. cbn [cell_eq].
  rewrite !String.eqb_refl. cbn [andb]. apply selection_set.
Qed.

Lemma on_cell_click_not_selected (s : session_state) (rep flag : string) :
  selection s <> (Some rep, Some flag) ->
  selection (on_cell_click s rep flag) = (Some rep, Some flag).
Proof.
  unfold selection at 1. intros H. unfold on_cell_click.
  destruct (cell_eq (session_get s "selected_rep") rep) eqn:E1;
    [destruct (cell_eq (session_get s "selected_flag") flag) eqn:E2|];
    cbn [andb]; try apply selection_set.
  exfalso. apply H. apply cell_eq_Some in E1. apply cell_eq_Some in E2.
  now rewrite E1, E2.
Qed.

Lemma session_get_init_key (s : session_state) (k k' : string) :
  session_get (init_key s k) k' = session_get s k'.
Proof.
  unfold init_key. destruct (lookup string_dec k s) eqn:E; [reflexivity|].
  destruct (string_dec k k') as [<-|NE].
  - rewrite session_get_set_same. unfold session_get, dict_get. now rewrite E.
  - now apply session_get_set_other.
Qed.

Lemma init_key_present (s : session_state) (k : string) :
  lookup string_dec k (init_key s k) <> None.
Proof.
  unfold init_key. destruct (lookup string_dec k s) eqn:E.
  - rewrite E. discriminate.
  - rewrite lookup_dict_set_same. discriminate.
Qed.

Lemma init_key_keeps (s : session_state) (k k' : string) :
  lookup string_dec k' s <> None -> lookup string_dec k' (init_key s k) <> None.
Proof.
  intros H. unfold init_key. destruct (lookup string_dec k s) eqn:E; [exact H|].
  destruct (string_dec k k') as [<-|NE]; [congruence|].
  now rewrite lookup_dict_set_other.
Qed.

Lemma init_key_again (s : session_state) (k : string) :
  lookup string_dec k s <> None -> init_key s k = s.
Proof.
  intros H. unfold init_key. destruct (lookup string_dec k s); congruence.
Qed.

End SessionFacts.

(** X24. A click on a cell of the summary selects the cell, unless it
    is the selected cell already, in which case nothing is selected any
    more.  A second click on the same cell undoes the first only in that
    it clears or sets this cell: a selection held before the first click
    does not come back. *)
Theorem on_cell_click_toggle (s : session_state) (rep flag : string) :
  (selection s = (Some rep, Some flag) ->
   selection (on_cell_click s rep flag) = (None, None)
   /\ selection (on_cell_click (on_cell_click s rep flag) rep flag)
      = (Some rep, Some flag))
  /\ (selection s <> (Some rep, Some flag) ->
      selection (on_cell_click s rep flag) = (Some rep, Some flag)
      /\ selection (on_cell_click (on_cell_click s rep flag) rep flag)
         = (None, None)).
Proof.
  split; intros H.
  - pose proof (on_cell_click_selected s rep flag H) as H1.
    split; [exact H1|].
    apply on_cell_click_not_selected. rewrite H1. discriminate.
  - pose proof (on_cell_click_not_selected s rep flag H) as H1.
    split; [exact H1|].
    now apply on_cell_click_selected.
Qed.

(** X25. A run of [main] that completes leaves the selection of the
    session as it found it, and running [main] again on the session
    state it left, with the same inputs, completes with the same page
    and the same state. *)
Theorem main_rerun (loaded : DataFrame) (today : Z) (selected_states : list string)
        (search_query : string) (min_population : Z)
        (show_blue show_orange show_red show_black show_purple : bool)
        (session session' : session_state) (p : page) :
  main loaded today selected_states search_query min_population
       show_blue show_orange show_red show_black show_purple session
  = Returns (session', p) ->
  selection session' = selection session
  /\ main loaded today selected_states search_query min_population
          show_blue show_orange show_red show_black show_purple session'
     = Returns (session', p).
Proof.
  unfold main. cbv zeta. destruct selected_states as [|st states].
  - intros H. injection H as <- <-. split; reflexivity.
  - set (s1 := init_key (init_key session "selected_rep") "selected_flag").
    assert (Hs : init_key (init_key s1 "selected_rep") "selected_flag" = s1).
    { assert (H1 : init_key s1 "selected_rep" = s1).
      { apply init_key_again. unfold s1. apply init_key_keeps, init_key_present. }
      rewrite H1. apply init_key_again. unfold s1. apply init_key_present. }
    destruct (filter_data _ _ _ (session_get s1 "selected_rep") _ _) as [fd| |] eqn:E;
      cbn [outcome_bind]; try discriminate.
    destruct (folium_accepts _) eqn:Ef; [|discriminate].
    intros H. injection H as <- <-. split.
    + unfold selection, s1. now rewrite !session_get_init_key.
    + rewrite Hs, E. cbn [outcome_bind]. now rewrite Ef.
Qed.

Lemma main_rerun_witness :
  selection [("selected_rep", None); ("selected_flag", None)] = selection []
  /\ main [camden] 0 ["NJ"] "" 0 true true true true true
          [("selected_rep", None); ("selected_flag", None)]
     = Returns ([("selected_rep", None); ("selected_flag", None)],
                dashboard_page []
                  (create_map [set_Flag camden "Purple"]
                              (find_available_cities [set_Flag camden "Purple"])
                              (flag_filters true true true true true))
                  [set_Flag camden "Purple"]).
Proof.
  apply (main_rerun [camden] 0 ["NJ"] "" 0 true true true true true []).
  reflexivity.
Defined.

Section MainFacts.

Lemma count_rows_positive (p : row -> bool) (data : DataFrame) :
  count_rows p data <> 0 -> exists r, In r data /\ p r = true.
Proof.
  induction data as [|r data IH]; [intros H; now elim H|].
  rewrite count_rows_cons. destruct (p r) eqn:E.
  - intros _. exists r. split; [now left | exact E].
  - intros H. destruct IH as [x [Hx Hp]]; [exact H|].
    exists x. split; [now right | exact Hp].
Qed.

(** The Total the summary shows for a representative, 0 when the
    representative has no row, is the number of the rows of a frame of
    classified rows that carry the representative. *)
Lemma summary_Total (data : DataFrame) (rep : string) :
  Forall assigned_flag data ->
  (forall r, In r data -> Flag r <> None) ->
  dict_get (dict_get (summarize_by_rep data) rep []) "Total" 0
  = count_rows (rep_is rep) data.
Proof.
  intros Hflag Hpresent. rewrite <- (total_counts data rep Hflag).
  rewrite summarize_by_rep_rows. unfold dict_get at 2.
  rewrite (lookup_map_key string_dec
             (fun rep => [("Blue", count_rows (rep_flag_is rep "Blue") data);
                          ("Orange", count_rows (rep_flag_is rep "Orange") data);
                          ("Red", count_rows (rep_flag_is rep "Red") data);
                          ("Black", count_rows (rep_flag_is rep "Black") data);
                          ("Total", count_rows (rep_flag_is rep "Blue") data
                                    + count_rows (rep_flag_is rep "Orange") data
                                    + count_rows (rep_flag_is rep "Red") data
                                    + count_rows (rep_flag_is rep "Black") data)])).
  destruct (in_dec string_dec rep _) as [_|Hn]; [reflexivity|].
  assert (Z0 : forall f, count_rows (rep_flag_is rep f) data = 0).
  { intros f. destruct (Nat.eq_dec (count_rows (rep_flag_is rep f) data) 0) as [E|NE];
      [exact E|].
    exfalso. apply Hn. apply count_rows_positive in NE.
    destruct NE as [r [Hr Hp]]. apply summary_index_In.
    unfold rep_flag_is in Hp. apply andb_true_iff in Hp. destruct Hp as [P1 P2].
    apply cell_eq_Some in P1. apply cell_eq_Some in P2. exists r, f. auto. }
  rewrite !Z0. reflexivity.
Qed.

End MainFacts.

(** X26. On a page of [main], the Total the summary shows for a
    representative (0 when the summary has no row for the
    representative) is the number of classified rows of the selected
    states that carry the representative, whatever the search text, the
    population floor and the selection; the dataset preview never holds
    more rows of the representative than that. *)
Theorem main_summary_covers_preview
        (loaded : DataFrame) (today : Z) (selected_states : list string)
        (search_query : string) (min_population : Z)
        (show_blue show_orange show_red show_black show_purple : bool)
        (session session' : session_state)
        (summary : table) (map_view : Map) (preview : DataFrame) (rep : string) :
  main loaded today selected_states search_query min_population
       show_blue show_orange show_red show_black show_purple session
  = Returns (session', dashboard_page summary map_view preview) ->
  dict_get (dict_get summary rep []) "Total" 0
  = count_rows (fun r => (isin (State r) selected_states && rep_is rep r)%bool) loaded
  /\ count_rows (rep_is rep) preview
     <= dict_get (dict_get summary rep []) "Total" 0.
Proof.
  unfold main. cbv zeta. destruct selected_states as [|st states]; [discriminate|].
  set (sts := st :: states).
  destruct (filter_data _ _ _ _ _ _) as [fd| |] eqn:E; cbn [outcome_bind];
    try discriminate.
  destruct (folium_accepts _); [|discriminate].
  intros H. injection H as _ <- _ <-.
  rewrite boolean_index_map.
  set (data := assign_flags today loaded) in *.
  assert (HT : dict_get
                 (dict_get (summarize_by_rep
                              (filter (fun r => isin (State r) sts) data)) rep [])
                 "Total" 0
               = count_rows (fun r => (isin (State r) sts && rep_is rep r)%bool) data).
  { rewrite summary_Total.
    - apply count_rows_filter.
    - apply Forall_filter. apply assign_flags_assigned_flag.
    - intros r Hr. apply filter_In in Hr. destruct Hr as [Hr _].
      unfold data in Hr. rewrite assign_flags_map in Hr.
      apply in_map_iff in Hr. destruct Hr as [r0 [<- _]]. discriminate. }
  rewrite HT. split.
  - unfold data. rewrite assign_flags_map. unfold count_rows.
    rewrite filter_map_rows, length_map. reflexivity.
  - apply filter_data_row_kept in E. destruct E as [-> _].
    rewrite count_rows_filter. apply count_rows_le.
    intros r _ Hk. apply andb_true_iff in Hk. destruct Hk as [Hk Hr].
    unfold row_kept, base_ok in Hk.
    repeat (apply andb_true_iff in Hk; destruct Hk as [Hk ?]).
    now rewrite Hk, Hr.
Qed.

Lemma main_summary_covers_preview_witness :
  dict_get (dict_get [("Ann", [("Blue", 0); ("Orange", 0); ("Red", 0);
                               ("Black", 1); ("Total", 1)])] "Ann" [])
           "Total" 0
  = count_rows (fun r => (isin (State r) ["NJ"; "PA"] && rep_is "Ann" r)%bool)
               [camden; philadelphia]
  /\ count_rows (rep_is "Ann") [set_Flag camden "Purple"]
     <= dict_get (dict_get [("Ann", [("Blue", 0); ("Orange", 0); ("Red", 0);
                                     ("Black", 1); ("Total", 1)])] "Ann" [])
                 "Total" 0.
Proof.
  apply (main_summary_covers_preview [camden; philadelphia] 0 ["NJ"; "PA"] "cam" 0
           true true true true true []
           [("selected_rep", None); ("selected_flag", None)]
           [("Ann", [("Blue", 0); ("Orange", 0); ("Red", 0);
                     ("Black", 1); ("Total", 1)])]
           (create_map [set_Flag camden "Purple"]
                       (find_available_cities [set_Flag camden "Purple"])
                       (flag_filters true true true true true))
           [set_Flag camden "Purple"] "Ann").
  reflexivity.
Defined.

(** X27. Classification and proximity filter do not agree on what is
    unassigned: in a classified frame, a row the proximity filter
    returns as available is Purple exactly when it has no assignment
    date; an available row with a date carries an assigned flag. *)
Theorem available_rows_flag (today : Z) (data : DataFrame) (u : row) :
  In u (find_available_cities (assign_flags today data)) ->
  (Flag u = Some "Purple" <-> Date_Assigned_to_Rep u = None)
  /\ (Date_Assigned_to_Rep u <> None ->
      Flag u = Some "Blue" \/ Flag u = Some "Orange"
      \/ Flag u = Some "Red" \/ Flag u = Some "Black").
Proof.
  intros H. apply find_available_cities_In in H. destruct H as [Hin [Hrep _]].
  rewrite assign_flags_map in Hin. apply in_map_iff in Hin.
  destruct Hin as [r [<- _]].
  cbn [Flag Date_Assigned_to_Rep Rep_Assigned set_Flag] in *.
  unfold row_flag. rewrite Hrep.
  destruct (Date_Assigned_to_Rep r) as [d|]; cbv zeta.
  - destruct (timedelta_days today d <=? 210)%Z;
      [split; [split; [discriminate | discriminate] | tauto]|].
    destruct ((210 <? timedelta_days today d) && (timedelta_days today d <=? 270))%Z;
      [split; [split; [discriminate | discriminate] | tauto]|].
    destruct ((270 <? timedelta_days today d)%Z && deals_eq_0 (Deals r));
      (split; [split; [discriminate | discriminate] | tauto]).
  - cbn [notna]. split; [tauto | congruence].
Qed.

(** ** The proximity filter on North American coordinates *)

Section NorthWest.

Local Open Scope R_scope.

Lemma radians_mono (x y : R) : x <= y -> radians x <= radians y.
Proof.
  intros H. unfold radians. pose proof PI_RGT_0 as Hpi.
  unfold Rdiv. rewrite !Rmult_assoc.
  apply Rmult_le_compat_r; [|exact H].
  apply Rmult_le_pos; lra.
Qed.

Lemma cos_half (x : R) : 0 <= x <= PI / 3 -> 1 / 2 <= cos x.
Proof.
  intros [H0 H1]. pose proof PI_RGT_0 as Hpi.
  rewrite <- cos_PI3. apply cos_decr_1; lra.
Qed.

Lemma sin_half (x : R) : PI / 6 <= x <= 5 * (PI / 6) -> 1 / 2 <= sin x.
Proof.
  intros [H0 H1]. pose proof PI_RGT_0 as Hpi. rewrite <- sin_PI6.
  destruct (Rle_dec x (PI / 2)) as [Hx|Hx].
  - apply sin_incr_1; lra.
  - rewrite <- (sin_PI_x x). apply sin_incr_1; lra.
Qed.

Lemma atan_quarter : 1 / 8 < atan (1 / 4).
Proof.
  assert (Hpos : 0 < atan (1 / 4)).
  { rewrite <- atan_0. apply atan_increasing. lra. }
  pose proof (sin_lt_x (atan (1 / 4)) Hpos) as Hs.
  rewrite sin_atan in Hs.
  set (s := sqrt (1 + (1 / 4)²)) in *.
  assert (Hs0 : 0 < s).
  { unfold s. apply sqrt_lt_R0. unfold Rsqr. lra. }
  assert (Hs2 : s <= 2).
  { unfold s. replace 2 with (sqrt (2 * 2)) by (apply sqrt_square; lra).
    apply sqrt_le_1_alt. unfold Rsqr. lra. }
  assert (Hq : 1 / 8 <= 1 / 4 / s).
  { replace (1 / 8) with (1 / 8 * s * / s) by (field; lra).
    unfold Rdiv at 3. apply Rmult_le_compat_r; [|lra].
    left. now apply Rinv_0_lt_compat. }
  lra.
Qed.

Lemma atan2_far (y x : R) : 1 / 4 <= y -> 0 <= x <= 1 -> 1 / 8 < atan2 y x.
Proof.
  intros Hy [Hx0 Hx1]. unfold atan2.
  destruct (Rlt_dec 0 x) as [Hx|Hx].
  - assert (Hq : 1 / 4 <= y / x).
    { apply Rle_trans with y; [exact Hy|].
      replace y with (y * x * / x) at 1 by (field; lra).
      unfold Rdiv. apply Rmult_le_compat_r.
      - left. now apply Rinv_0_lt_compat.
      - replace y with (y * 1) at 2 by ring.
        apply Rmult_le_compat_l; lra. }
    pose proof atan_quarter as Ha.
    destruct Hq as [Hq|Hq].
    + pose proof (atan_increasing _ _ Hq). lra.
    + rewrite <- Hq. exact Ha.
  - destruct (Rlt_dec x 0) as [Hn|_]; [lra|].
    destruct (Rlt_dec 0 y) as [_|Hn]; [|lra].
    pose proof PI2_1. lra.
Qed.

Lemma haversine_R_far (lat1 lon1 lat2 lon2 : R) :
  0 <= lat1 <= 60 -> -180 <= lon1 <= -60 -> 0 <= lat2 <= 60 ->
  7 < haversine_R lat1 lon1 lat2 lon2.
Proof.
  intros [A0 A1] [B0 B1] [C0 C1]. pose proof PI_RGT_0 as Hpi.
  unfold haversine_R. cbv zeta.
  destruct (haversine_sqrt_arguments lat1 lon1 lat2) as [Ha0 Ha1].
  cbv zeta in Ha0, Ha1.
  set (a := sin (radians (lat2 - lat1) / 2) ^ 2
            + cos (radians lat1) * cos (radians lat2)
              * sin (radians (lat2 - lon1) / 2) ^ 2) in *.
  assert (R60 : radians 60 = PI / 3) by (unfold radians; field).
  assert (K1 : 1 / 2 <= cos (radians lat1)).
  { apply cos_half. rewrite <- radians_0, <- R60.
    split; apply radians_mono; lra. }
  assert (K2 : 1 / 2 <= cos (radians lat2)).
  { apply cos_half. rewrite <- radians_0, <- R60.
    split; apply radians_mono; lra. }
  assert (K3 : 1 / 2 <= sin (radians (lat2 - lon1) / 2)).
  { apply sin_half.
    assert (E1 : radians 60 <= radians (lat2 - lon1)) by (apply radians_mono; lra).
    assert (E2 : radians (lat2 - lon1) <= radians 240) by (apply radians_mono; lra).
    assert (R240 : radians 240 = 4 * (PI / 3)) by (unfold radians; field).
    rewrite R60 in E1. rewrite R240 in E2. lra. }
  assert (Ha : 1 / 16 <= a).
  { unfold a.
    assert (P0 : 0 <= sin (radians (lat2 - lat1) / 2) ^ 2).
    { replace (sin (radians (lat2 - lat1) / 2) ^ 2)
        with (Rsqr (sin (radians (lat2 - lat1) / 2))) by (unfold Rsqr; ring).
      apply Rle_0_sqr. }
    assert (P1 : 1 / 4 <= cos (radians lat1) * cos (radians lat2)).
    { replace (1 / 4) with (1 / 2 * (1 / 2)) by field.
      apply Rmult_le_compat; lra. }
    assert (P2 : 1 / 4 <= sin (radians (lat2 - lon1) / 2) ^ 2).
    { replace (1 / 4) with (1 / 2 * (1 / 2)) by field.
      replace (sin (radians (lat2 - lon1) / 2) ^ 2)
        with (sin (radians (lat2 - lon1) / 2) * sin (radians (lat2 - lon1) / 2))
        by ring.
      apply Rmult_le_compat; lra. }
    assert (P3 : 1 / 16 <= cos (radians lat1) * cos (radians lat2)
                            * sin (radians (lat2 - lon1) / 2) ^ 2).
    { replace (1 / 16) with (1 / 4 * (1 / 4)) by field.
      apply Rmult_le_compat; lra. }
    lra. }
  assert (Hy : 1 / 4 <= sqrt a).
  { replace (1 / 4) with (sqrt (1 / 4 * (1 / 4))) by (apply sqrt_square; lra).
    apply sqrt_le_1_alt. lra. }
  assert (Hx : 0 <= sqrt (1 - a) <= 1).
  { split; [apply sqrt_pos|].
    rewrite <- sqrt_1 at 2. apply sqrt_le_1_alt. lra. }
  pose proof (atan2_far (sqrt a) (sqrt (1 - a)) Hy Hx) as Hc.
  set (c := atan2 (sqrt a) (sqrt (1 - a))) in *. lra.
Qed.

End NorthWest.

(** X28. On a frame whose rows all lie between the equator and 60
    degrees north and between 180 and 60 degrees west, the distance
    [haversine] computes between an unassigned and an assigned row is
    always more than 7 miles: the proximity filter takes no row out and
    returns every row without representative, however close to an
    assigned row it lies. *)
Theorem find_available_cities_north_west (data : DataFrame) :
  (forall r, In r data -> north_west r) ->
  find_available_cities data = unassigned_rows data
  /\ (forall u a, In u data -> In a data -> float_gt (distance u a) 7).
Proof.
  intros Hreg.
  assert (Hd : forall u a, In u data -> In a data -> float_gt (distance u a) 7).
  { intros u a Hu Ha.
    destruct (Hreg u Hu) as [lat1 [lon1 [E1 [E2 [L1 L2]]]]].
    destruct (Hreg a Ha) as [lat2 [lon2 [E3 [E4 [L3 _]]]]].
    unfold distance. rewrite E1, E2, E3.
    rewrite (haversine_Some lat1 lon1 lat2 _ 0). simpl.
    now apply haversine_R_far. }
  split; [|exact Hd].
  rewrite find_available_cities_available_in.
  unfold unassigned_rows. rewrite boolean_index_map.
  apply filter_ext_in. intros u Hu. unfold available_in.
  destruct (isna (Rep_Assigned u)); [|reflexivity]. cbn [andb].
  rewrite scan_assigned_existsb.
  destruct (existsb _ _) eqn:E; [|reflexivity].
  exfalso. apply existsb_exists in E. destruct E as [a [Ha E]].
  rewrite assigned_rows_filter in Ha. apply filter_In in Ha.
  destruct Ha as [Ha _]. specialize (Hd u a Hu Ha).
  destruct (distance u a) as [d|]; [|exact Hd]. simpl in E, Hd.
  destruct (Rle_dec d 7); [lra | discriminate].
Qed.

Lemma find_available_cities_north_west_witness :
  find_available_cities [camden; philadelphia] = unassigned_rows [camden; philadelphia]
  /\ (forall u a, In u [camden; philadelphia] -> In a [camden; philadelphia] ->
                  float_gt (distance u a) 7).
Proof.
  apply find_available_cities_north_west.
  intros r [<-|[<-|[]]].
  - exists (3994 / 100)%R, (-7512 / 100)%R.
    repeat split; try reflexivity; lra.
  - exists (3995 / 100)%R, (-7517 / 100)%R.
    repeat split; try reflexivity; lra.
Defined.

(** ** The proximity filter against the great-circle distance *)

Section GreatCircle.

Local Open Scope R_scope.

Lemma haversine_standard_same (lat lon : R) :
  haversine_standard lat lon lat lon = 0.
Proof.
  unfold haversine_standard. cbv zeta.
  replace (lat - lat) with 0 by ring. replace (lon - lon) with 0 by ring.
  rewrite radians_0. replace (0 / 2) with 0 by field. rewrite sin_0.
  replace (0 ^ 2 + cos (radians lat) * cos (radians lat) * 0 ^ 2) with 0 by ring.
  replace (1 - 0) with 1 by ring.
  rewrite sqrt_0, sqrt_1, atan2_0_1. ring.
Qed.

Lemma half_circumference_far : 7 < 39588 / 10 * PI.
Proof. pose proof PI2_1. lra. Qed.

(** Camden is available although an assigned row lies in the region. *)
Lemma north_west_available (u : row) (data : DataFrame) :
  In u data -> Rep_Assigned u = None ->
  (forall r, In r data -> north_west r) ->
  In u (find_available_cities data).
Proof.
  intros Hu Hrep Hreg. apply find_available_cities_In.
  split; [exact Hu|]. split; [exact Hrep|]. intros a Ha _.
  destruct (Hreg u Hu) as [lat1 [lon1 [E1 [E2 [L1 L2]]]]].
  destruct (Hreg a Ha) as [lat2 [lon2 [E3 [_ [L3 _]]]]].
  unfold distance. rewrite E1, E2, E3.
  rewrite (haversine_Some lat1 lon1 lat2 _ 0). simpl.
  pose proof (haversine_R_far lat1 lon1 lat2 0 L1 L2 L3).
  destruct (Rle_dec (haversine_R lat1 lon1 lat2 0) 7); [lra | reflexivity].
Qed.

Lemma camden_region :
  forall r, In r [camden; philadelphia] -> north_west r.
Proof.
  intros r [<-|[<-|[]]].
  - exists (3994 / 100), (-7512 / 100). repeat split; try reflexivity; lra.
  - exists (3995 / 100), (-7517 / 100). repeat split; try reflexivity; lra.
Qed.

Lemma camden_office_region :
  forall r, In r [camden; camden_office] -> north_west r.
Proof.
  intros r [<-|[<-|[]]];
    exists (3994 / 100), (-7512 / 100); repeat split; try reflexivity; lra.
Qed.

End GreatCircle.

(** C2. The proximity filter does not keep the rows whose great-circle
    distance to every assigned row exceeds 7 miles.  The number it
    compares with 7 comes from [haversine], which does not compute that
    distance (C1).  The point (0, 0), half the circumference away from
    the only assigned row at (0, 180), is left out of the result; and an
    unassigned city at the very coordinates of an assigned row,
    great-circle distance 0, is returned as available. *)
Theorem find_available_cities_not_great_circle :
  (Rep_Assigned origin = None /\ Rep_Assigned antipode <> None
   /\ great_circle origin antipode = Some (39588 / 10 * PI)%R
   /\ float_gt (great_circle origin antipode) 7
   /\ distance origin antipode = Some 0%R
   /\ ~ In origin (find_available_cities [origin; antipode]))
  /\ (Rep_Assigned camden = None /\ Rep_Assigned camden_office <> None
      /\ great_circle camden camden_office = Some 0%R
      /\ ~ float_gt (great_circle camden camden_office) 7
      /\ In camden (find_available_cities [camden; camden_office])).
Proof.
  assert (G1 : great_circle origin antipode = Some (39588 / 10 * PI)%R).
  { unfold great_circle. cbn [Latitude Longitude origin antipode].
    now rewrite haversine_standard_equator. }
  assert (D1 : distance origin antipode = Some 0%R).
  { unfold distance. cbn [Latitude Longitude origin antipode].
    now rewrite (haversine_Some 0 0 0 (Some 180%R) 180), haversine_R_equator. }
  assert (G2 : great_circle camden camden_office = Some 0%R).
  { unfold great_circle. cbn [Latitude Longitude camden camden_office].
    now rewrite haversine_standard_same. }
  split.
  - split; [reflexivity|]. split; [discriminate|]. split; [exact G1|].
    split; [rewrite G1; simpl; apply half_circumference_far|].
    split; [exact D1|].
    intros Hin. apply find_available_cities_In in Hin.
    destruct Hin as [_ [_ Hall]].
    assert (H : float_le (distance origin antipode) 7 = false).
    { apply Hall; [right; left; reflexivity | discriminate]. }
    rewrite D1 in H. simpl in H.
    destruct (Rle_dec 0 7) as [_|Hn]; [discriminate | apply Hn; lra].
  - split; [reflexivity|]. split; [discriminate|]. split; [exact G2|].
    split; [rewrite G2; simpl; lra|].
    apply north_west_available.
    + left. reflexivity.
    + reflexivity.
    + apply camden_office_region.
Qed.

Lemma find_available_cities_idempotent_witness :
  find_available_cities (find_available_cities [camden; philadelphia])
  = find_available_cities [camden; philadelphia].
Proof.
  apply find_available_cities_idempotent.
  intros H.
  assert (Hin : In camden (find_available_cities [camden; philadelphia])).
  { apply north_west_available;
      [left; reflexivity | reflexivity | apply camden_region]. }
  rewrite H in Hin. exact Hin.
Defined.

Lemma find_available_cities_subframe_witness :
  In camden (find_available_cities [camden]).
Proof.
  apply (find_available_cities_subframe [camden; philadelphia] [camden] camden).
  - intros r [<-|[]]. left. reflexivity.
  - left. reflexivity.
  - apply north_west_available;
      [left; reflexivity | reflexivity | apply camden_region].
Defined.

Lemma available_rows_flag_witness :
  (Flag (set_Flag trenton "Blue") = Some "Purple" <->
   Date_Assigned_to_Rep (set_Flag trenton "Blue") = None)
  /\ (Date_Assigned_to_Rep (set_Flag trenton "Blue") <> None ->
      Flag (set_Flag trenton "Blue") = Some "Blue"
      \/ Flag (set_Flag trenton "Blue") = Some "Orange"
      \/ Flag (set_Flag trenton "Blue") = Some "Red"
      \/ Flag (set_Flag trenton "Blue") = Some "Black").
Proof.
  apply (available_rows_flag 0 [trenton; salem]). left. reflexivity.
Defined.
